(** * brush-palette: the brush record, its coercions and its synchronisation
      with the host's default drawing configuration

    A shallow embedding of [scripts/module.mjs] (in its three revisions: the
    libWrapper one, the [preCreateDrawing] one and the one with the
    [_selfUpdatingCoreConfig] guard) and of [scripts/BrushPalette.mjs].

    JavaScript values are embedded as an inductive type, the shared [brush]
    object as a record of values, the module-level variables as fields of a
    state record, and an [async] function as the part that runs up to its
    [await] and the part that runs when the awaited promise settles. *)

From Stdlib Require Import List String Ascii Bool ZArith QArith Lia Lqa.
Import ListNotations.

Local Open Scope string_scope.
Local Open Scope Q_scope.

(* ===================================================================== *)
(** ** JavaScript numbers and values *)
(* ===================================================================== *)

(** A JavaScript number, by its exact value: every finite double is a
    rational.  The module only compares numbers, takes maxima and subtracts
    a margin from an integral viewport size, all of which are exact on
    doubles, so the order on [Q] is the order the code sees.  [-0] is not
    told apart from [+0]: the code never divides and never uses [Object.is]. *)
Inductive number : Type :=
  | NaN
  | NegInf
  | PosInf
  | Fin (q : Q).

(** [a <= b]; every comparison with [NaN] is false. *)
Definition num_le (a b : number) : bool :=
  match a, b with
  | NaN, _ | _, NaN => false
  | NegInf, _ => true
  | _, PosInf => true
  | PosInf, _ => false
  | Fin _, NegInf => false
  | Fin x, Fin y => Qle_bool x y
  end.

(** [a < b]. *)
Definition num_lt (a b : number) : bool :=
  match a, b with
  | NaN, _ | _, NaN => false
  | _, NegInf => false
  | NegInf, _ => true
  | PosInf, _ => false
  | Fin _, PosInf => true
  | Fin x, Fin y => negb (Qle_bool y x)
  end.

(** [a >= b]. *)
Definition num_ge (a b : number) : bool := num_le b a.

(** Equality of numbers as [===] sees it: [NaN] differs from itself. *)
Definition num_eq (a b : number) : bool :=
  match a, b with
  | NegInf, NegInf | PosInf, PosInf => true
  | Fin x, Fin y => Qeq_bool x y
  | _, _ => false
  end.

(** [-a] and [a - b] on numbers. *)
Definition num_neg (a : number) : number :=
  match a with
  | NaN => NaN
  | NegInf => PosInf
  | PosInf => NegInf
  | Fin x => Fin (- x)
  end.

Definition num_sub (a b : number) : number :=
  match a, b with
  | NaN, _ | _, NaN => NaN
  | PosInf, PosInf | NegInf, NegInf => NaN
  | PosInf, _ | _, NegInf => PosInf
  | NegInf, _ | _, PosInf => NegInf
  | Fin x, Fin y => Fin (x - y)
  end.

(** [Math.max] of two numbers: [NaN] when either is. *)
Definition num_max (a b : number) : number :=
  match a, b with
  | NaN, _ | _, NaN => NaN
  | _, _ => if num_lt a b then b else a
  end.

Definition is_NaN (a : number) : bool :=
  match a with NaN => true | _ => false end.

(** A number that is neither [NaN] nor infinite ([Number.isFinite]). *)
Definition is_finite (a : number) : bool :=
  match a with Fin _ => true | _ => false end.

(** The values a field of the brush, of a preset or of a configuration
    object can hold.  An object (or array) is kept by its reference and by
    the number [ToNumber] gives for it: the module never looks inside one.
    Symbols and big integers do not occur: the fields come from JSON
    storage, from form inputs and from the literals of the module. *)
Inductive value : Type :=
  | VUndefined
  | VNull
  | VBool (b : bool)
  | VNum (n : number)
  | VStr (s : string)
  | VObj (ref : nat) (prim : number).

(** A number literal. *)
Definition num (q : Q) : value := VNum (Fin q).

(** [ToBoolean]: the falsy values are [undefined], [null], [false], [NaN],
    zero and the empty string. *)
Definition ToBoolean (v : value) : bool :=
  match v with
  | VUndefined | VNull => false
  | VBool b => b
  | VNum NaN => false
  | VNum (Fin q) => negb (Qeq_bool q 0)
  | VNum _ => true
  | VStr s => negb (String.eqb s "")
  | VObj _ _ => true
  end.

(** [typeof v === "object"] ([null] included). *)
Definition typeof_object (v : value) : bool :=
  match v with VNull | VObj _ _ => true | _ => false end.

(** [a === b]. *)
Definition strict_eq (a b : value) : bool :=
  match a, b with
  | VUndefined, VUndefined | VNull, VNull => true
  | VBool x, VBool y => Bool.eqb x y
  | VNum x, VNum y => num_eq x y
  | VStr x, VStr y => String.eqb x y
  | VObj r _, VObj r' _ => Nat.eqb r r'
  | _, _ => false
  end.

(** [a || b], [a ?? b] and [!a]. *)
Definition js_or (a b : value) : value := if ToBoolean a then a else b.

Definition js_coalesce (a b : value) : value :=
  match a with
  | VUndefined | VNull => b
  | _ => a
  end.

Definition js_not (a : value) : bool := negb (ToBoolean a).

Declare Scope js_scope.
Delimit Scope js_scope with js.
Notation "a || b" := (js_or a b) : js_scope.
Notation "a ?? b" := (js_coalesce a b) (at level 50, left associativity) : js_scope.
Notation "a === b" := (strict_eq a b) (at level 70, no associativity) : js_scope.
Notation "a !== b" := (negb (strict_eq a b)) (at level 70, no associativity) : js_scope.

(* ===================================================================== *)
(** ** The records of the module *)
(* ===================================================================== *)

(** The shared [brush] object.  A missing key reads as [undefined]. *)
Module Brush.
Record t : Type := mk {
  strokeColor : value;
  strokeWidth : value;
  strokeAlpha : value;
  strokeStyle : value;
  fillType : value;
  fillColor : value;
  fillAlpha : value;
  bezierFactor : value
}.

Definition set_strokeColor (v : value) (b : t) : t :=
  mk v (strokeWidth b) (strokeAlpha b) (strokeStyle b) (fillType b)
     (fillColor b) (fillAlpha b) (bezierFactor b).
Definition set_strokeWidth (v : value) (b : t) : t :=
  mk (strokeColor b) v (strokeAlpha b) (strokeStyle b) (fillType b)
     (fillColor b) (fillAlpha b) (bezierFactor b).
Definition set_strokeAlpha (v : value) (b : t) : t :=
  mk (strokeColor b) (strokeWidth b) v (strokeStyle b) (fillType b)
     (fillColor b) (fillAlpha b) (bezierFactor b).
Definition set_strokeStyle (v : value) (b : t) : t :=
  mk (strokeColor b) (strokeWidth b) (strokeAlpha b) v (fillType b)
     (fillColor b) (fillAlpha b) (bezierFactor b).
Definition set_fillType (v : value) (b : t) : t :=
  mk (strokeColor b) (strokeWidth b) (strokeAlpha b) (strokeStyle b) v
     (fillColor b) (fillAlpha b) (bezierFactor b).
Definition set_fillColor (v : value) (b : t) : t :=
  mk (strokeColor b) (strokeWidth b) (strokeAlpha b) (strokeStyle b)
     (fillType b) v (fillAlpha b) (bezierFactor b).
Definition set_fillAlpha (v : value) (b : t) : t :=
  mk (strokeColor b) (strokeWidth b) (strokeAlpha b) (strokeStyle b)
     (fillType b) (fillColor b) v (bezierFactor b).
Definition set_bezierFactor (v : value) (b : t) : t :=
  mk (strokeColor b) (strokeWidth b) (strokeAlpha b) (strokeStyle b)
     (fillType b) (fillColor b) (fillAlpha b) v.
End Brush.

(** What the [lineStyle.dash] flag of advanced-drawing-tools holds in a
    drawing-data object: no such flag, an explicit [null], or a pattern. *)
Inductive dash_flag : Type :=
  | NoDash
  | DashNull
  | Dash (pattern : list Z).

(** A drawing-data object: the data of a new drawing, the update applied to
    a drawing document, and the value of [core.defaultDrawingConfig]. *)
Module Drawing.
Record t : Type := mk {
  strokeColor : value;
  strokeWidth : value;
  strokeAlpha : value;
  fillType : value;
  fillColor : value;
  fillAlpha : value;
  bezierFactor : value;
  texture : value;
  dash : dash_flag
}.

(** An object with none of these keys. *)
Definition empty : t :=
  mk VUndefined VUndefined VUndefined VUndefined VUndefined VUndefined
     VUndefined VUndefined NoDash.
End Drawing.

(** A preset: a name and a snapshot of the eight brush fields. *)
Module Preset.
Record t : Type := mk {
  name : value;
  strokeColor : value;
  strokeWidth : value;
  strokeAlpha : value;
  strokeStyle : value;
  fillType : value;
  fillColor : value;
  fillAlpha : value;
  bezierFactor : value
}.
End Preset.

(** A window position. *)
Module Pos.
Record t : Type := mk { left : value; top : value }.
End Pos.

(** [const DEFAULT_BRUSH]. *)
Definition DEFAULT_BRUSH : Brush.t :=
  Brush.mk (VStr "#000000") (num 8) (num 1) (VStr "solid") (num 0)
           (VStr "#ffffff") (num 0.5) (num 0).

(** [const DEFAULT_PRESETS]. *)
Definition DEFAULT_PRESETS : list Preset.t :=
  [ Preset.mk (VStr "Fine Pen") (VStr "#000000") (num 2) (num 1) (VStr "solid")
              (num 0) (VStr "#ffffff") (num 0.5) (num 0.3);
    Preset.mk (VStr "Marker") (VStr "#ff0000") (num 8) (num 1) (VStr "solid")
              (num 0) (VStr "#ffffff") (num 0.5) (num 0.2);
    Preset.mk (VStr "Highlighter") (VStr "#ffff00") (num 20) (num 0.4)
              (VStr "solid") (num 0) (VStr "#ffffff") (num 0.5) (num 0.1);
    Preset.mk (VStr "Thick Outline") (VStr "#000000") (num 4) (num 1)
              (VStr "solid") (num 1) (VStr "#4488ff") (num 0.3) (num 0.25);
    Preset.mk (VStr "Area Fill") (VStr "#228822") (num 2) (num 1)
              (VStr "dashed") (num 1) (VStr "#88ff88") (num 0.5) (num 0);
    Preset.mk (VStr "Danger Zone") (VStr "#cc0000") (num 3) (num 1)
              (VStr "dotted") (num 1) (VStr "#ff4444") (num 0.4) (num 0) ].

(** [const STROKE_DASH_PATTERNS], indexed by [brush.strokeStyle], followed by
    [|| null]: [None] is the [null] the code then tests.  The table of the
    libWrapper revision and the one of the [preCreateDrawing] revisions.
    Only the three keys of the table are looked up: the names a plain object
    inherits are not style names, and a style that is not a string names no
    pattern. *)
Definition STROKE_DASH_PATTERNS (style : value) : option (list Z) :=
  match style with
  | VStr "dotted" => Some [4; 4]%Z
  | VStr "dashed" => Some [12; 6]%Z
  | _ => None
  end.

Definition STROKE_DASH_PATTERNS' (style : value) : option (list Z) :=
  match style with
  | VStr "dotted" => Some [4; 8]%Z
  | VStr "dashed" => Some [18; 3]%Z
  | _ => None
  end.

(* ===================================================================== *)
(** ** Coercions that depend on built-ins of the language *)
(* ===================================================================== *)

Section Module_mjs.

(** Built-ins of the language the module calls and that are taken as they
    come: the number a string converts to ([Number(s)]), [String.prototype.trim]
    and, further down, [JSON.parse].  Every statement below holds whatever
    they compute. *)
Variable StringToNumber : string -> number.
Variable trim : string -> string.

(** [ToNumber]. *)
Definition ToNumber (v : value) : number :=
  match v with
  | VUndefined => NaN
  | VNull => Fin 0
  | VBool true => Fin 1
  | VBool false => Fin 0
  | VNum n => n
  | VStr s => StringToNumber s
  | VObj _ prim => prim
  end.

(** [Number(v)]: always a number value. *)
Definition Number (v : value) : value := VNum (ToNumber v).

(** [Math.max(a, b)]. *)
Definition Math_max (a b : value) : value :=
  VNum (num_max (ToNumber a) (ToNumber b)).

(** [a >= b] and [a < b] where one side is a number (both sides are then
    converted to numbers). *)
Definition js_ge (a b : value) : bool := num_ge (ToNumber a) (ToNumber b).
Definition js_lt (a b : value) : bool := num_lt (ToNumber a) (ToNumber b).

Local Open Scope js_scope.

(* ===================================================================== *)
(** ** Validation of the brush *)
(* ===================================================================== *)

(** [function _validateBrush()], one assignment after the other. *)
Definition _validateBrush (brush : Brush.t) : Brush.t :=
  let brush := Brush.set_strokeWidth
    (Math_max (num 1) (Number (Brush.strokeWidth brush) || num 8)) brush in
  let brush := Brush.set_strokeAlpha
    (Math_max (num 0.1) (Number (Brush.strokeAlpha brush) || num 1)) brush in
  let brush := Brush.set_strokeColor
    (Brush.strokeColor brush || VStr "#000000") brush in
  let brush := Brush.set_fillType
    (Number (Brush.fillType brush) ?? num 0) brush in
  let brush := Brush.set_fillAlpha
    (Number (Brush.fillAlpha brush) ?? num 0.5) brush in
  let brush := Brush.set_fillColor
    (Brush.fillColor brush || VStr "#ffffff") brush in
  let brush := Brush.set_bezierFactor
    (Number (Brush.bezierFactor brush) ?? num 0) brush in
  let brush := Brush.set_strokeStyle
    (Brush.strokeStyle brush || VStr "solid") brush in
  brush.

(** [Object.assign(brush, saved)] for a saved object given by its entries
    in order; a key that is not one of the eight is not a brush field. *)
Definition assign_key (entry : string * value) (brush : Brush.t) : Brush.t :=
  let (key, v) := entry in
  if String.eqb key "strokeColor" then Brush.set_strokeColor v brush
  else if String.eqb key "strokeWidth" then Brush.set_strokeWidth v brush
  else if String.eqb key "strokeAlpha" then Brush.set_strokeAlpha v brush
  else if String.eqb key "strokeStyle" then Brush.set_strokeStyle v brush
  else if String.eqb key "fillType" then Brush.set_fillType v brush
  else if String.eqb key "fillColor" then Brush.set_fillColor v brush
  else if String.eqb key "fillAlpha" then Brush.set_fillAlpha v brush
  else if String.eqb key "bezierFactor" then Brush.set_bezierFactor v brush
  else brush.

Definition Object_assign (brush : Brush.t) (saved : list (string * value)) : Brush.t :=
  fold_left (fun b entry => assign_key entry b) saved brush.

(** The clamping [_loadPersistedBrush] does after the assignment. *)
Definition _loadPersistedBrush_clamp (brush : Brush.t) : Brush.t :=
  let brush := Brush.set_strokeWidth
    (Math_max (num 1)
       (Number (Brush.strokeWidth brush) || Brush.strokeWidth DEFAULT_BRUSH))
    brush in
  let brush := Brush.set_strokeAlpha
    (Math_max (num 0.05)
       (Number (Brush.strokeAlpha brush) || Brush.strokeAlpha DEFAULT_BRUSH))
    brush in
  let brush := Brush.set_fillType
    (Number (Brush.fillType brush) || num 0) brush in
  let brush := Brush.set_fillAlpha
    (Math_max (num 0)
       (Number (Brush.fillAlpha brush) || Brush.fillAlpha DEFAULT_BRUSH))
    brush in
  let brush := Brush.set_bezierFactor
    (Math_max (num 0) (Number (Brush.bezierFactor brush) || num 0)) brush in
  let brush := Brush.set_strokeStyle
    (Brush.strokeStyle brush || VStr "solid") brush in
  let brush := Brush.set_strokeColor
    (Brush.strokeColor brush || Brush.strokeColor DEFAULT_BRUSH) brush in
  let brush := Brush.set_fillColor
    (Brush.fillColor brush || Brush.fillColor DEFAULT_BRUSH) brush in
  brush.

(** [function _loadPersistedBrush()]; [saved] is the stored [lastBrush]
    setting, [None] when it is falsy. *)
Definition _loadPersistedBrush
    (saved : option (list (string * value))) (brush : Brush.t) : Brush.t :=
  match saved with
  | Some entries => _loadPersistedBrush_clamp (Object_assign brush entries)
  | None => brush
  end.

(* ===================================================================== *)
(** ** Applying the brush to a new drawing *)
(* ===================================================================== *)

(** The wrapper registered on [DrawingsLayer.prototype._getNewDrawingData]
    (libWrapper revision); [data] is what [wrapped(origin)] returned. *)
Definition _getNewDrawingData (brush : Brush.t) (data : Drawing.t) : Drawing.t :=
  let strokeWidth := Math_max (num 1) (Number (Brush.strokeWidth brush) || num 8) in
  let strokeAlpha := Math_max (num 0.1) (Number (Brush.strokeAlpha brush) || num 1) in
  let fillType := Number (Brush.fillType brush) ?? num 0 in
  let fillAlpha := Number (Brush.fillAlpha brush) ?? num 0.5 in
  let bezierFactor := Number (Brush.bezierFactor brush) ?? num 0 in
  let fillType :=
    if (fillType === num 2) && js_not (Drawing.texture data)
    then num 1 else fillType in
  let dashPattern := STROKE_DASH_PATTERNS (Brush.strokeStyle brush) in
  Drawing.mk
    (Brush.strokeColor brush || VStr "#000000")
    strokeWidth
    strokeAlpha
    fillType
    (Brush.fillColor brush || VStr "#ffffff")
    (if js_ge fillAlpha (num 0) then fillAlpha else num 0.5)
    (if js_ge bezierFactor (num 0) then bezierFactor else num 0)
    (Drawing.texture data)
    (match dashPattern with
     | Some p => Dash p
     | None => Drawing.dash data
     end).

(** The [updateData] object the [preCreateDrawing] hook builds (guard
    revision); [adt_active] is
    [game.modules.get("advanced-drawing-tools")?.active]. *)
Definition preCreateDrawing_updateData
    (adt_active : bool) (brush : Brush.t) (data : Drawing.t) : Drawing.t :=
  let strokeWidth := Math_max (num 1) (Number (Brush.strokeWidth brush) || num 8) in
  let strokeAlpha := Math_max (num 0.1) (Number (Brush.strokeAlpha brush) || num 1) in
  let fillType := Number (Brush.fillType brush) ?? num 0 in
  let fillAlpha := Number (Brush.fillAlpha brush) ?? num 0.5 in
  let bezierFactor := Number (Brush.bezierFactor brush) ?? num 0 in
  let fillType :=
    if (fillType === num 2) && js_not (Drawing.texture data)
    then num 1 else fillType in
  Drawing.mk
    (Brush.strokeColor brush || VStr "#000000")
    strokeWidth
    strokeAlpha
    fillType
    (Brush.fillColor brush || VStr "#ffffff")
    (if js_ge fillAlpha (num 0) then fillAlpha else num 0.5)
    (if js_ge bezierFactor (num 0) then bezierFactor else num 0)
    VUndefined
    (if adt_active
     then match STROKE_DASH_PATTERNS' (Brush.strokeStyle brush) with
          | Some p => Dash p
          | None => NoDash
          end
     else NoDash).

(** [document.updateSource(updateData)]: the keys of the update replace
    those of the document; the texture and, without a dash in the update,
    the flags stay. *)
Definition updateSource (document updateData : Drawing.t) : Drawing.t :=
  Drawing.mk
    (Drawing.strokeColor updateData)
    (Drawing.strokeWidth updateData)
    (Drawing.strokeAlpha updateData)
    (Drawing.fillType updateData)
    (Drawing.fillColor updateData)
    (Drawing.fillAlpha updateData)
    (Drawing.bezierFactor updateData)
    (Drawing.texture document)
    (match Drawing.dash updateData with
     | NoDash => Drawing.dash document
     | d => d
     end).

(** The [preCreateDrawing] hook: the document after the update.  The
    revision without the guard is the same hook with the test on
    advanced-drawing-tools left out, that is [adt_active = true]. *)
Definition preCreateDrawing
    (adt_active : bool) (brush : Brush.t) (document data : Drawing.t) : Drawing.t :=
  updateSource document (preCreateDrawing_updateData adt_active brush data).

(* ===================================================================== *)
(** ** Module state, host calls and exceptions *)
(* ===================================================================== *)

(** The calls the module makes on the host, in the order it makes them. *)
Inductive effect : Type :=
  | Settings_set_lastBrush (b : Brush.t)
  | Settings_set_defaultDrawingConfig (config : Drawing.t)
  | Settings_set_presets (l : list Preset.t)
  | Console_warn (msg : string)
  | Console_debug (msg : string)
  | Notifications_warn (msg : string)
  | Palette_render
  | SetPosition (pos : Pos.t).

(** The module-level variables ([brush], [_selfUpdatingCoreConfig]) and what
    the module shares with the host: the writes of
    [core.defaultDrawingConfig] whose promise is not settled yet (each one is
    a suspended call of [_updateCoreDrawingConfig]), the stored presets
    ([None]: a falsy stored value), the [presetName] input of the palette
    ([None]: no such element), the position of the palette window and the
    calls made so far. *)
Record State : Type := mkState {
  brush : Brush.t;
  _selfUpdatingCoreConfig : bool;
  inflight : list Drawing.t;
  presets : option (list Preset.t);
  presetName : option string;
  position : Pos.t;
  effects : list effect
}.

Definition with_brush (b : Brush.t) (st : State) : State :=
  mkState b (_selfUpdatingCoreConfig st) (inflight st) (presets st)
          (presetName st) (position st) (effects st).
Definition with_flag (f : bool) (st : State) : State :=
  mkState (brush st) f (inflight st) (presets st) (presetName st)
          (position st) (effects st).
Definition with_inflight (l : list Drawing.t) (st : State) : State :=
  mkState (brush st) (_selfUpdatingCoreConfig st) l (presets st)
          (presetName st) (position st) (effects st).
Definition with_presets (p : option (list Preset.t)) (st : State) : State :=
  mkState (brush st) (_selfUpdatingCoreConfig st) (inflight st) p
          (presetName st) (position st) (effects st).
Definition with_presetName (n : option string) (st : State) : State :=
  mkState (brush st) (_selfUpdatingCoreConfig st) (inflight st) (presets st)
          n (position st) (effects st).
Definition with_position (p : Pos.t) (st : State) : State :=
  mkState (brush st) (_selfUpdatingCoreConfig st) (inflight st) (presets st)
          (presetName st) p (effects st).
Definition with_effects (e : list effect) (st : State) : State :=
  mkState (brush st) (_selfUpdatingCoreConfig st) (inflight st) (presets st)
          (presetName st) (position st) e.

(** The state when the module is loaded; the window has no position yet. *)
Definition initial_state : State :=
  mkState DEFAULT_BRUSH false [] (Some DEFAULT_PRESETS) None
          (Pos.mk VUndefined VUndefined) [].

(** How a block of statements ends: normally, or by throwing. *)
Inductive completion (A : Type) : Type :=
  | Normal (a : A)
  | Throw (e : value).
Arguments Normal {A} a.
Arguments Throw {A} e.

(** Statements: they read and write the state and may throw. *)
Definition M (A : Type) : Type := State -> completion A * State.

Definition ret {A} (a : A) : M A := fun st => (Normal a, st).

Definition bind {A B} (m : M A) (k : A -> M B) : M B :=
  fun st =>
    match m st with
    | (Normal a, st') => k a st'
    | (Throw e, st') => (Throw e, st')
    end.

Definition throw {A} (e : value) : M A := fun st => (Throw e, st).

(** [try { body } catch (e) { handler }]. *)
Definition try_catch {A} (body : M A) (handler : value -> M A) : M A :=
  fun st =>
    match body st with
    | (Normal a, st') => (Normal a, st')
    | (Throw e, st') => handler e st'
    end.

Declare Scope stmt_scope.
Delimit Scope stmt_scope with stmt.
Notation "x <- m ;; k" := (bind m (fun x => k))
  (at level 100, m at next level, right associativity) : stmt_scope.
Notation "m ;; k" := (bind m (fun _ => k))
  (at level 100, right associativity) : stmt_scope.
Local Open Scope stmt_scope.

Definition get {A} (proj : State -> A) : M A := fun st => (Normal (proj st), st).
Definition modify (f : State -> State) : M unit := fun st => (Normal tt, f st).
Definition perform (e : effect) : M unit :=
  modify (fun st => with_effects (effects st ++ [e]) st).

(** The state a block of statements leaves, and how it ended. *)
Definition exec {A} (m : M A) (st : State) : State := snd (m st).
Definition outcome {A} (m : M A) (st : State) : completion A := fst (m st).

(** How the host settles the promise of a settings write. *)
Inductive settled : Type :=
  | Resolved
  | Rejected (e : value).

(** [await p] for a promise that settles as [r]. *)
Definition await (r : settled) : M unit :=
  match r with
  | Resolved => ret tt
  | Rejected e => throw e
  end.

(* ===================================================================== *)
(** ** Writing the host's default drawing configuration *)
(* ===================================================================== *)

(** What the module reads from the host when it runs: the name of the
    active scene control ([ui.controls?.control?.name], in the libWrapper
    revision [ui.controls?.activeControl]), whether advanced-drawing-tools
    is active and whether the palette window is rendered. *)
Record Env : Type := mkEnv {
  activeControl : value;
  adt_active : bool;
  palette_rendered : bool
}.

(** [function _isDrawingToolActive()]. *)
Definition _isDrawingToolActive (env : Env) : bool :=
  activeControl env === VStr "drawings".

(** [game.settings.set("core", "defaultDrawingConfig", config)]: the host
    function is asynchronous, the call returns a promise and the write is in
    flight until the host settles it. *)
Definition settings_set_defaultDrawingConfig (config : Drawing.t) : M unit :=
  modify (fun st => with_inflight (inflight st ++ [config]) st) ;;
  perform (Settings_set_defaultDrawingConfig config).

Definition warn_core : string :=
  "brush-palette | Could not update core defaultDrawingConfig:".

(** The [config] object [_updateCoreDrawingConfig] builds in the guard
    revision. *)
Definition core_config (env : Env) (brush : Brush.t) : Drawing.t :=
  let fillType := Number (Brush.fillType brush) ?? num 0 in
  let fillType := if fillType === num 2 then num 1 else fillType in
  Drawing.mk
    (Brush.strokeColor brush || VStr "#000000")
    (Math_max (num 1) (Brush.strokeWidth brush || num 8))
    (Math_max (num 0.1) (Number (Brush.strokeAlpha brush) || num 1))
    fillType
    (Brush.fillColor brush || VStr "#ffffff")
    (if js_ge (Number (Brush.fillAlpha brush)) (num 0)
     then Number (Brush.fillAlpha brush) else num 0.5)
    (if js_ge (Number (Brush.bezierFactor brush)) (num 0)
     then Number (Brush.bezierFactor brush) else num 0)
    VUndefined
    (if adt_active env
     then match STROKE_DASH_PATTERNS' (Brush.strokeStyle brush) with
          | Some p => Dash p
          | None => DashNull
          end
     else NoDash).

(** [async function _updateCoreDrawingConfig()] of the guard revision, up to
    its [await]: the configuration is built, the flag is raised and the
    write is issued. *)
Definition _updateCoreDrawingConfig_begin (env : Env) : M unit :=
  brush <- get brush ;;
  let config := core_config env brush in
  modify (with_flag true) ;;
  settings_set_defaultDrawingConfig config.

(** The same function from its [await] on, when the promise settles as [r]:
    the rest of the [try] block, or the [catch] block. *)
Definition _updateCoreDrawingConfig_resume (r : settled) : M unit :=
  try_catch
    (await r ;;
     modify (with_flag false))
    (fun e =>
     modify (with_flag false) ;;
     perform (Console_warn warn_core)).

(** The [config] object of the two revisions without the guard. *)
Definition core_config_plain (brush : Brush.t) : Drawing.t :=
  Drawing.mk
    (Brush.strokeColor brush || VStr "#000000")
    (Math_max (num 1) (Brush.strokeWidth brush || num 8))
    (num 1)
    (num 1)
    (Brush.fillColor brush || VStr "#ffffff")
    (num 1)
    (Brush.bezierFactor brush ?? num 0)
    VUndefined
    NoDash.

(** [_updateCoreDrawingConfig] of the two revisions without the guard, up
    to its [await] and from it on. *)
Definition _updateCoreDrawingConfig_plain_begin : M unit :=
  brush <- get brush ;;
  let config := core_config_plain brush in
  settings_set_defaultDrawingConfig config.

Definition _updateCoreDrawingConfig_plain_resume (r : settled) : M unit :=
  try_catch
    (await r)
    (fun e => perform (Console_warn warn_core)).

(** The write in flight at position [i] leaves the list when it settles. *)
Definition remove_nth {A} (i : nat) (l : list A) : list A :=
  firstn i l ++ skipn (S i) l.

Definition settle_write (i : nat) : M unit :=
  modify (fun st => with_inflight (remove_nth i (inflight st)) st).

(** A whole call of [_updateCoreDrawingConfig] during which nothing else
    runs: the write it issues is the last one in flight, and it settles as
    [r]. *)
Definition _updateCoreDrawingConfig (env : Env) (r : settled) : M unit :=
  _updateCoreDrawingConfig_begin env ;;
  n <- get (fun st => List.length (inflight st)) ;;
  settle_write (Nat.pred n) ;;
  _updateCoreDrawingConfig_resume r.

Definition _updateCoreDrawingConfig_plain (r : settled) : M unit :=
  _updateCoreDrawingConfig_plain_begin ;;
  n <- get (fun st => List.length (inflight st)) ;;
  settle_write (Nat.pred n) ;;
  _updateCoreDrawingConfig_plain_resume r.

(** [export function saveBrushSettings()]: neither promise is awaited. *)
Definition saveBrushSettings (env : Env) : M unit :=
  brush <- get brush ;;
  perform (Settings_set_lastBrush brush) ;;
  _updateCoreDrawingConfig_begin env.

Definition saveBrushSettings_plain : M unit :=
  brush <- get brush ;;
  perform (Settings_set_lastBrush brush) ;;
  _updateCoreDrawingConfig_plain_begin.

(* ===================================================================== *)
(** ** The [updateSetting] hook of the guard revision *)
(* ===================================================================== *)

(** What a setting holds, or what [JSON.parse] returns: a configuration
    object with the drawing keys, or any other value (an object among them
    then has none of these keys). *)
Inductive config_value : Type :=
  | CObject (c : Drawing.t)
  | CValue (v : value).

Record Setting : Type := mkSetting {
  setting_key : string;
  setting_value : config_value
}.

(** [JSON.parse(s)]: a value, or a thrown [SyntaxError]. *)
Variable JSON_parse : string -> completion config_value.

Definition lift_completion {A} (c : completion A) : M A := fun st => (c, st).

(** [!newConfig || typeof newConfig !== "object"]. *)
Definition not_an_object (newConfig : config_value) : bool :=
  match newConfig with
  | CObject _ => false
  | CValue v => js_not v || negb (typeof_object v)
  end.

(** The keys of [newConfig] the hook reads. *)
Definition config_fields (newConfig : config_value) : Drawing.t :=
  match newConfig with
  | CObject c => c
  | CValue _ => Drawing.empty
  end.

Definition warn_sync : string :=
  "brush-palette | Failed to sync external drawing config change:".
Definition debug_sync : string :=
  "brush-palette | Synced external drawing config change into brush palette".

(** [Hooks.on("updateSetting", (setting) => { ... })]. *)
Definition updateSetting (env : Env) (setting : Setting) : M unit :=
  if negb (String.eqb (setting_key setting) "core.defaultDrawingConfig")
  then ret tt else
  selfUpdating <- get _selfUpdatingCoreConfig ;;
  if selfUpdating then ret tt else
  if negb (_isDrawingToolActive env) then ret tt else
  try_catch
    (newConfig <-
       match setting_value setting with
       | CValue (VStr s) => lift_completion (JSON_parse s)
       | v => ret v
       end ;;
     if not_an_object newConfig then ret tt else
     let newConfig := config_fields newConfig in
     let changed := false in
     b <- get brush ;;
     changed <-
       (if ToBoolean (Drawing.strokeColor newConfig)
           && (Drawing.strokeColor newConfig !== Brush.strokeColor b)
        then modify (fun st =>
               with_brush (Brush.set_strokeColor
                             (Drawing.strokeColor newConfig) (brush st)) st) ;;
             ret true
        else ret changed) ;;
     b <- get brush ;;
     changed <-
       (if (Drawing.strokeAlpha newConfig !== VUndefined)
           && (Drawing.strokeAlpha newConfig !== Brush.strokeAlpha b)
        then modify (fun st =>
               with_brush (Brush.set_strokeAlpha
                             (Math_max (num 0.05)
                                (Number (Drawing.strokeAlpha newConfig) || num 1))
                             (brush st)) st) ;;
             ret true
        else ret changed) ;;
     b <- get brush ;;
     changed <-
       (if ToBoolean (Drawing.fillColor newConfig)
           && (Drawing.fillColor newConfig !== Brush.fillColor b)
        then modify (fun st =>
               with_brush (Brush.set_fillColor
                             (Drawing.fillColor newConfig) (brush st)) st) ;;
             ret true
        else ret changed) ;;
     b <- get brush ;;
     changed <-
       (if (Drawing.fillAlpha newConfig !== VUndefined)
           && (Drawing.fillAlpha newConfig !== Brush.fillAlpha b)
        then modify (fun st =>
               with_brush (Brush.set_fillAlpha
                             (Math_max (num 0)
                                (Number (Drawing.fillAlpha newConfig) || num 0))
                             (brush st)) st) ;;
             ret true
        else ret changed) ;;
     if changed
     then saveBrushSettings env ;;
          (if palette_rendered env then perform Palette_render else ret tt) ;;
          perform (Console_debug debug_sync)
     else ret tt)
    (fun e => perform (Console_warn warn_sync)).

(* ===================================================================== *)
(** ** The module on the event loop *)
(* ===================================================================== *)

(** What the host can run next on the single thread: a call of
    [_updateCoreDrawingConfig] (it runs up to its [await]), the settling of
    the write in flight at some position (the suspended call resumes), a
    call of [saveBrushSettings], the [canvasReady] hook, or an
    [updateSetting] notification. *)
Inductive event : Type :=
  | Call_updateCoreDrawingConfig (env : Env)
  | Settle (i : nat) (r : settled)
  | Call_saveBrushSettings (env : Env)
  | CanvasReady (env : Env)
  | UpdateSetting (env : Env) (setting : Setting).

Definition step (ev : event) (st : State) : State :=
  match ev with
  | Call_updateCoreDrawingConfig env =>
      exec (_updateCoreDrawingConfig_begin env) st
  | Settle i r =>
      if Nat.ltb i (List.length (inflight st))
      then exec (settle_write i ;; _updateCoreDrawingConfig_resume r) st
      else st
  | Call_saveBrushSettings env =>
      exec (saveBrushSettings env) st
  | CanvasReady env =>
      exec (modify (fun st => with_brush (_validateBrush (brush st)) st) ;;
            _updateCoreDrawingConfig_begin env) st
  | UpdateSetting env setting =>
      exec (updateSetting env setting) st
  end.

(** The states the module goes through, oldest first, the starting state
    left out. *)
Fixpoint trace (evs : list event) (st : State) : list State :=
  match evs with
  | [] => []
  | ev :: evs => let st' := step ev st in st' :: trace evs st'
  end.

Definition run (evs : list event) (st : State) : State :=
  fold_left (fun st ev => step ev st) evs st.

(** One write at a time: no state of the run has two writes in flight. *)
Definition one_at_a_time (evs : list event) (st : State) : Prop :=
  Forall (fun st' => (List.length (inflight st') <= 1)%nat) (st :: trace evs st).

(** The guard says what it is for: raised exactly while a write is in
    flight. *)
Definition guard_tracks_writes (st : State) : Prop :=
  _selfUpdatingCoreConfig st = negb (Nat.eqb (List.length (inflight st)) 0).

(** With no write in flight the flag is down. *)
Definition idle_means_clear (st : State) : Prop :=
  inflight st = [] -> _selfUpdatingCoreConfig st = false.

(* ===================================================================== *)
(** ** The palette window: presets and position *)
(* ===================================================================== *)

(** [export function getPresets()] and [savePresets(presets)]: the host
    stores the list it is handed. *)
Definition getPresets : M (list Preset.t) :=
  stored <- get presets ;;
  ret (match stored with Some l => l | None => [] end).

Definition savePresets (l : list Preset.t) : M unit :=
  modify (with_presets (Some l)) ;;
  perform (Settings_set_presets l).

(** [presets[index]] for the result of [parseInt] ([None]: [NaN]). *)
Definition preset_at (index : option Z) (l : list Preset.t) : option Preset.t :=
  match index with
  | Some z => if (z <? 0)%Z then None else nth_error l (Z.to_nat z)
  | None => None
  end.

(** [array.splice(start, 1)]: a negative start counts from the end, [NaN]
    is 0, and the start is clamped to the length. *)
Definition Array_splice1 {A} (start : option Z) (l : list A) : list A :=
  let len := Z.of_nat (List.length l) in
  let relativeStart := match start with Some z => z | None => 0%Z end in
  let actualStart :=
    if (relativeStart <? 0)%Z then Z.max (len + relativeStart) 0
    else Z.min relativeStart len in
  remove_nth (Z.to_nat actualStart) l.

(** [static #loadPreset(event, target)]; [index] is
    [parseInt(target.dataset.index, 10)], and every element of the stored
    list is a preset object. *)
Definition loadPreset (index : option Z) : M unit :=
  presets <- getPresets ;;
  match preset_at index presets with
  | None => ret tt
  | Some preset =>
      modify (fun st => with_brush
        (Brush.set_strokeColor
           (Preset.strokeColor preset ?? Brush.strokeColor (brush st)) (brush st)) st) ;;
      modify (fun st => with_brush
        (Brush.set_strokeWidth
           (Preset.strokeWidth preset ?? Brush.strokeWidth (brush st)) (brush st)) st) ;;
      modify (fun st => with_brush
        (Brush.set_strokeAlpha
           (Preset.strokeAlpha preset ?? Brush.strokeAlpha (brush st)) (brush st)) st) ;;
      modify (fun st => with_brush
        (Brush.set_fillType
           (Preset.fillType preset ?? Brush.fillType (brush st)) (brush st)) st) ;;
      modify (fun st => with_brush
        (Brush.set_fillColor
           (Preset.fillColor preset ?? Brush.fillColor (brush st)) (brush st)) st) ;;
      modify (fun st => with_brush
        (Brush.set_fillAlpha
           (Preset.fillAlpha preset ?? Brush.fillAlpha (brush st)) (brush st)) st) ;;
      modify (fun st => with_brush
        (Brush.set_bezierFactor
           (Preset.bezierFactor preset ?? Brush.bezierFactor (brush st)) (brush st)) st) ;;
      modify (fun st => with_brush
        (Brush.set_strokeStyle
           (Preset.strokeStyle preset ?? Brush.strokeStyle (brush st)) (brush st)) st) ;;
      saveBrushSettings_plain ;;
      perform Palette_render
  end.

(** [static #deletePreset(event, target)]. *)
Definition deletePreset (index : option Z) : M unit :=
  presets <- getPresets ;;
  let presets := Array_splice1 index presets in
  savePresets presets ;;
  perform Palette_render.

(** [static #savePreset(event, target)]: [nameInput?.value?.trim()] is
    [undefined] without the input element. *)
Definition savePreset : M unit :=
  nameInput <- get presetName ;;
  let name := option_map trim nameInput in
  let warn := perform (Notifications_warn "Please enter a preset name") in
  match name with
  | None => warn
  | Some name =>
      if String.eqb name "" then warn else
      brush <- get brush ;;
      let preset :=
        Preset.mk (VStr name)
                  (Brush.strokeColor brush) (Brush.strokeWidth brush)
                  (Brush.strokeAlpha brush) (Brush.strokeStyle brush)
                  (Brush.fillType brush) (Brush.fillColor brush)
                  (Brush.fillAlpha brush) (Brush.bezierFactor brush) in
      presets <- getPresets ;;
      let presets := (presets ++ [preset])%list in
      savePresets presets ;;
      modify (with_presetName (Some "")) ;;
      perform Palette_render
  end.

(** [#isPositionInViewport(pos)] for a window of [vw] by [vh]. *)
Definition isPositionInViewport (vw vh : number) (pos : Pos.t) : bool :=
  let margin := Fin 50 in
  js_ge (Pos.left pos) (VNum (num_neg margin))
  && js_ge (Pos.top pos) (VNum (num_neg margin))
  && js_lt (Pos.left pos) (VNum (num_sub vw margin))
  && js_lt (Pos.top pos) (VNum (num_sub vh margin)).

(** The part of [_onRender(context, options)] that restores the position;
    [savedPos] is what [getPalettePosition()] returns ([None]: a falsy
    value). *)
Definition _onRender (vw vh : number) (savedPos : option Pos.t) : M unit :=
  match savedPos with
  | Some savedPos =>
      if isPositionInViewport vw vh savedPos
      then let pos := Pos.mk (Pos.left savedPos) (Pos.top savedPos) in
           modify (with_position pos) ;;
           perform (SetPosition pos)
      else ret tt
  | None => ret tt
  end.

(** The spec's words for the test above: the point lies inside the visible
    viewport, that is inside the rectangle from the origin to the size of
    the window. *)
Definition inside_visible_viewport (vw vh x y : Q) : Prop :=
  0 <= x /\ x < vw /\ 0 <= y /\ y < vh.

(* ===================================================================== *)
(** ** Concrete built-ins, to run the definitions on examples *)
(* ===================================================================== *)

(** The number a string of decimal digits stands for; the empty string is 0
    and any other string is [NaN] (signs, fractions and exponents are left
    to the real [Number]). *)
Fixpoint digits_value (acc : Z) (s : string) : option Z :=
  match s with
  | EmptyString => Some acc
  | String c s' =>
      let n := Z.of_nat (nat_of_ascii c) in
      if ((48 <=? n) && (n <=? 57))%Z
      then digits_value (10 * acc + (n - 48))%Z s'
      else None
  end.

Definition digits_to_number (s : string) : number :=
  match digits_value 0 s with
  | Some z => Fin (inject_Z z)
  | None => NaN
  end.

(** Trimming of the ASCII white space and line terminators. *)
Definition is_space (c : ascii) : bool :=
  let n := nat_of_ascii c in
  orb (andb (Nat.leb 9 n) (Nat.leb n 13)) (Nat.eqb n 32).

Fixpoint trim_start (s : string) : string :=
  match s with
  | EmptyString => EmptyString
  | String c s' => if is_space c then trim_start s' else s
  end.

Fixpoint trim_end (s : string) : string :=
  match s with
  | EmptyString => EmptyString
  | String c s' =>
      match trim_end s' with
      | EmptyString => if is_space c then EmptyString else String c EmptyString
      | t => String c t
      end
  end.

Definition trim_spaces (s : string) : string := trim_end (trim_start s).

(** A [JSON.parse] that accepts no text. *)
Definition parse_nothing (s : string) : completion config_value :=
  Throw (VStr "SyntaxError").

(* ===================================================================== *)
(** ** What the host accepts, in the words of the specification *)
(* ===================================================================== *)

(** [v] is a number and at least [lo]. *)
Definition number_at_least (lo : Q) (v : value) : Prop :=
  exists n, v = VNum n /\ num_le (Fin lo) n = true.

(** The constraints the host validates on the data of a new drawing:
    widths from 1, stroke opacity from 0.1, a pattern fill only with a
    texture, fill opacity and curve factor from 0.  [texture] is the texture
    of the data the drawing is created from. *)
Definition meets_host_constraints (texture : value) (d : Drawing.t) : Prop :=
  number_at_least 1 (Drawing.strokeWidth d) /\
  number_at_least 0.1 (Drawing.strokeAlpha d) /\
  ((Drawing.fillType d === num 2) = true -> ToBoolean texture = true) /\
  number_at_least 0 (Drawing.fillAlpha d) /\
  number_at_least 0 (Drawing.bezierFactor d).

(** The clamping invariant of the brush: a width from 1, a stroke opacity
    from 0.1, a fill opacity and a curve factor from 0, all of them
    numbers. *)
Definition brush_clamped (b : Brush.t) : Prop :=
  number_at_least 1 (Brush.strokeWidth b) /\
  number_at_least 0.1 (Brush.strokeAlpha b) /\
  number_at_least 0 (Brush.fillAlpha b) /\
  number_at_least 0 (Brush.bezierFactor b).

(** A field of a preset is present and holds a value ([null] is the absence
    of one). *)
Definition has_value (v : value) : Prop := v <> VUndefined /\ v <> VNull.

Definition preset_complete (p : Preset.t) : Prop :=
  has_value (Preset.strokeColor p) /\ has_value (Preset.strokeWidth p) /\
  has_value (Preset.strokeAlpha p) /\ has_value (Preset.strokeStyle p) /\
  has_value (Preset.fillType p) /\ has_value (Preset.fillColor p) /\
  has_value (Preset.fillAlpha p) /\ has_value (Preset.bezierFactor p).

(** The stored list of presets as [getPresets] reads it. *)
Definition stored_presets (st : State) : list Preset.t :=
  match presets st with Some l => l | None => [] end.

(** The snapshot [savePreset] takes of the brush. *)
Definition snapshot (name : string) (b : Brush.t) : Preset.t :=
  Preset.mk (VStr name)
            (Brush.strokeColor b) (Brush.strokeWidth b) (Brush.strokeAlpha b)
            (Brush.strokeStyle b) (Brush.fillType b) (Brush.fillColor b)
            (Brush.fillAlpha b) (Brush.bezierFactor b).

(* ===================================================================== *)
(** ** Statements that keep a relation between the states they run in *)
(* ===================================================================== *)

(** [m] takes every state to one related to it by [R], however it ends. *)
Definition respects {A} (R : State -> State -> Prop) (m : M A) : Prop :=
  forall st, R st (exec m st).

(** The relations used below.  The handler of [updateSetting] may write
    four fields of the brush; the other four are its frame. *)
Definition same_frame (st st' : State) : Prop :=
  Brush.strokeWidth (brush st') = Brush.strokeWidth (brush st)
  /\ Brush.strokeStyle (brush st') = Brush.strokeStyle (brush st)
  /\ Brush.fillType (brush st') = Brush.fillType (brush st)
  /\ Brush.bezierFactor (brush st') = Brush.bezierFactor (brush st).

(** Writes are only issued, and the flag is raised when one is and left
    alone when none is. *)
Definition only_issues (st st' : State) : Prop :=
  exists l, inflight st' = (inflight st ++ l)%list
            /\ (l = [] -> _selfUpdatingCoreConfig st' = _selfUpdatingCoreConfig st)
            /\ (l <> [] -> _selfUpdatingCoreConfig st' = true).

(** The brush is not touched. *)
Definition same_brush (st st' : State) : Prop := brush st' = brush st.

(** Reading a key of an object that has just been built. *)
Ltac drawing_fields :=
  cbn [Drawing.strokeColor Drawing.strokeWidth Drawing.strokeAlpha
       Drawing.fillType Drawing.fillColor Drawing.fillAlpha
       Drawing.bezierFactor Drawing.texture Drawing.dash] in *.

Ltac brush_fields :=
  cbn [Brush.strokeColor Brush.strokeWidth Brush.strokeAlpha Brush.strokeStyle
       Brush.fillType Brush.fillColor Brush.fillAlpha Brush.bezierFactor
       Brush.set_strokeColor Brush.set_strokeWidth Brush.set_strokeAlpha
       Brush.set_strokeStyle Brush.set_fillType Brush.set_fillColor
       Brush.set_fillAlpha Brush.set_bezierFactor] in *.

Ltac state_fields :=
  cbn [brush _selfUpdatingCoreConfig inflight presets presetName position
       effects with_brush with_flag with_inflight with_presets
       with_presetName with_position with_effects] in *.

(* ===================================================================== *)
(** ** Inputs the statements below are run on *)
(* ===================================================================== *)

(** A brush whose fill opacity is [NaN] and whose curve factor is negative,
    as a stored preset with such fields leaves it after [loadPreset]. *)
Definition brush_bad_fill : Brush.t :=
  Brush.set_bezierFactor (num (-1)) (Brush.set_fillAlpha (VNum NaN) DEFAULT_BRUSH).

(** A brush none of whose fields is usable. *)
Definition brush_all_invalid : Brush.t :=
  Brush.mk VUndefined (VNum NaN) VUndefined VUndefined VUndefined (VStr "")
           (VNum NaN) VUndefined.

(** A brush with an infinite width. *)
Definition brush_infinite_width : Brush.t :=
  Brush.set_strokeWidth (VNum PosInf) DEFAULT_BRUSH.

(** The drawings control is active and the palette is rendered. *)
Definition env_drawing : Env := mkEnv (VStr "drawings") false true.

(** The brush after the opacity slider is set to 5%, the lowest opacity the
    input handler of the palette accepts. *)
Definition brush_faint : Brush.t :=
  Brush.set_strokeAlpha (num 0.05) DEFAULT_BRUSH.

(** Two slider events in a row, each calling [saveBrushSettings] and so
    issuing a write, and then the host settling the first write. *)
Definition overlapping_writes : list event :=
  [ Call_saveBrushSettings env_drawing;
    Call_saveBrushSettings env_drawing;
    Settle 0 Resolved ].

(** The notification of the module's own write of [config]. *)
Definition own_notification (config : Drawing.t) : event :=
  UpdateSetting env_drawing
    (mkSetting "core.defaultDrawingConfig" (CObject config)).

(** An external change of the default configuration: another module sets
    a red stroke at 40% opacity. *)
Definition external_red : Setting :=
  mkSetting "core.defaultDrawingConfig"
    (CObject (Drawing.mk (VStr "#ff0000") (num 3) (num 0.4) (num 2)
                         VUndefined VUndefined (num 0.5) VUndefined NoDash)).

(** A saved position ten pixels to the left of the window, and one ten
    pixels short of its right edge, for a window of 800 by 600. *)
Definition pos_left_of_window : Pos.t := Pos.mk (num (-10)) (num 10).
Definition pos_near_right_edge : Pos.t := Pos.mk (num 790) (num 10).

(** The first default preset with a fill opacity of [null], as a [NaN]
    comes back from JSON storage, and the same preset under a name with a
    space in front. *)
Definition preset_null_fill : Preset.t :=
  Preset.mk (VStr "Fine Pen") (VStr "#000000") (num 2) (num 1) (VStr "solid")
            (num 0) (VStr "#ffffff") VNull (num 0.3).

Definition preset_padded_name : Preset.t :=
  Preset.mk (VStr " Fine Pen") (VStr "#000000") (num 2) (num 1) (VStr "solid")
            (num 0) (VStr "#ffffff") (num 0.5) (num 0.3).

(** The eight brush fields of a preset are present: each key is there. *)
Definition fields_present (p : Preset.t) : Prop :=
  Preset.strokeColor p <> VUndefined /\ Preset.strokeWidth p <> VUndefined /\
  Preset.strokeAlpha p <> VUndefined /\ Preset.strokeStyle p <> VUndefined /\
  Preset.fillType p <> VUndefined /\ Preset.fillColor p <> VUndefined /\
  Preset.fillAlpha p <> VUndefined /\ Preset.bezierFactor p <> VUndefined.

(* ===================================================================== *)
(** ** The rest of the module: start-up, drag start and the palette's inputs *)
(* ===================================================================== *)

(** Two more built-ins, taken as they come: [parseInt(s, 10)] and
    [parseFloat(s)]. *)
Variable parseInt10 : string -> number.
Variable parseFloat : string -> number.

(** [Hooks.once("ready", ...)] of the guard revision; [saved] is the stored
    [lastBrush] setting. *)
Definition ready (env : Env) (saved : option (list (string * value))) : M unit :=
  modify (fun st => with_brush (_loadPersistedBrush saved (brush st)) st) ;;
  modify (fun st => with_brush (_validateBrush (brush st)) st) ;;
  _updateCoreDrawingConfig_begin env.

(** [Hooks.on("canvasReady", ...)] of the guard revision. *)
Definition canvasReady (env : Env) : M unit :=
  modify (fun st => with_brush (_validateBrush (brush st)) st) ;;
  _updateCoreDrawingConfig_begin env.

(** The wrapper registered on [DrawingsLayer.prototype._onDragLeftStart]
    (libWrapper revision), up to its first [await]: the brush is repaired
    and the configuration is written. *)
Definition _onDragLeftStart_begin : M unit :=
  modify (fun st => with_brush
    (Brush.set_strokeWidth
       (Math_max (num 1) (Number (Brush.strokeWidth (brush st)) || num 8))
       (brush st)) st) ;;
  modify (fun st => with_brush
    (Brush.set_strokeAlpha
       (Math_max (num 0.1) (Number (Brush.strokeAlpha (brush st)) || num 1))
       (brush st)) st) ;;
  b <- get brush ;;
  (if js_not (Brush.strokeColor b)
   then modify (fun st => with_brush
          (Brush.set_strokeColor (VStr "#000000") (brush st)) st)
   else ret tt) ;;
  _updateCoreDrawingConfig_plain_begin.

(** The same wrapper once the write has settled as [r]: the rest of
    [_updateCoreDrawingConfig], then [return await wrapped(event)], the
    host's own handler, given by what it does and how it ends. *)
Definition _onDragLeftStart_resume {A} (wrapped : M A) (r : settled) : M A :=
  _updateCoreDrawingConfig_plain_resume r ;;
  wrapped.

(** [/^#[0-9a-f]{6}$/i.test(s)]. *)
Definition is_hex_digit (c : ascii) : bool :=
  let n := nat_of_ascii c in
  orb (andb (Nat.leb 48 n) (Nat.leb n 57))
      (orb (andb (Nat.leb 97 n) (Nat.leb n 102))
           (andb (Nat.leb 65 n) (Nat.leb n 70))).

Definition is_hex_color (s : string) : bool :=
  match s with
  | String c rest =>
      andb (Ascii.eqb c "#")
           (andb (Nat.eqb (String.length rest) 6)
                 (forallb is_hex_digit (list_ascii_of_string rest)))
  | EmptyString => false
  end.

(** An [input] or [change] event of the palette: the name, the value and
    the checked state of its target, and whether the colour picker the
    text field mirrors is in the window
    ([this.element.querySelector('input[name="strokeColor"]')]). *)
Record InputEvent : Type := mkInput {
  input_name : string;
  input_value : string;
  input_checked : bool;
  picker_present : bool
}.

(** What assigning to [.value] of a missing element throws. *)
Definition TypeError : value := VStr "TypeError".

Definition set_brush (f : Brush.t -> Brush.t) : M unit :=
  modify (fun st => with_brush (f (brush st)) st).

(** [#onInputChange(event)].  The writes to the window (the text beside a
    picker, the value beside a slider, the active swatch) are not part of
    the state; the one that can fail is kept. *)
Definition onInputChange (ev : InputEvent) : M unit :=
  let name := input_name ev in
  let value := input_value ev in
  let mirror := if picker_present ev then ret tt else throw TypeError in
  if String.eqb name "strokeColor" then
    set_brush (Brush.set_strokeColor (VStr value)) ;;
    saveBrushSettings_plain
  else if String.eqb name "strokeColorText" then
    (if is_hex_color value
     then set_brush (Brush.set_strokeColor (VStr value)) ;; mirror
     else ret tt) ;;
    saveBrushSettings_plain
  else if String.eqb name "strokeWidth" then
    set_brush (Brush.set_strokeWidth
                 (Math_max (num 1) (VNum (parseInt10 value) || num 1))) ;;
    saveBrushSettings_plain
  else if String.eqb name "strokeAlpha" then
    set_brush (Brush.set_strokeAlpha
                 (Math_max (num 0.05) (VNum (parseFloat value) || num 0.05))) ;;
    saveBrushSettings_plain
  else if String.eqb name "strokeStyle" then
    set_brush (Brush.set_strokeStyle (VStr value)) ;;
    saveBrushSettings_plain
  else if String.eqb name "fillEnabled" then
    set_brush (Brush.set_fillType (if input_checked ev then num 1 else num 0)) ;;
    saveBrushSettings_plain ;;
    perform Palette_render
  else if String.eqb name "fillColor" then
    set_brush (Brush.set_fillColor (VStr value)) ;;
    saveBrushSettings_plain
  else if String.eqb name "fillColorText" then
    (if is_hex_color value
     then set_brush (Brush.set_fillColor (VStr value)) ;; mirror
     else ret tt) ;;
    saveBrushSettings_plain
  else if String.eqb name "fillAlpha" then
    set_brush (Brush.set_fillAlpha
                 (Math_max (num 0) (VNum (parseFloat value) || num 0))) ;;
    saveBrushSettings_plain
  else if String.eqb name "bezierFactor" then
    set_brush (Brush.set_bezierFactor
                 (Math_max (num 0) (VNum (parseFloat value) || num 0))) ;;
    saveBrushSettings_plain
  else
    saveBrushSettings_plain.

(** [static #pickStrokeColor(event, target)] and [#pickFillColor]; [color]
    is [target.dataset.color]. *)
Definition pickStrokeColor (color : value) : M unit :=
  if js_not color then ret tt else
  set_brush (Brush.set_strokeColor color) ;;
  saveBrushSettings_plain.

Definition pickFillColor (color : value) : M unit :=
  if js_not color then ret tt else
  set_brush (Brush.set_fillColor color) ;;
  saveBrushSettings_plain.

(** Everything that can write the brush besides [loadPreset], in any of
    the revisions and in the palette. *)
Inductive action : Type :=
  | Act_ready (env : Env) (saved : option (list (string * value)))
  | Act_canvasReady (env : Env)
  | Act_updateSetting (env : Env) (setting : Setting)
  | Act_dragStart
  | Act_input (ev : InputEvent)
  | Act_pickStroke (color : value)
  | Act_pickFill (color : value)
  | Act_settle (i : nat) (r : settled).

Definition act (a : action) : M unit :=
  match a with
  | Act_ready env saved => ready env saved
  | Act_canvasReady env => canvasReady env
  | Act_updateSetting env setting => updateSetting env setting
  | Act_dragStart => _onDragLeftStart_begin
  | Act_input ev => onInputChange ev
  | Act_pickStroke color => pickStrokeColor color
  | Act_pickFill color => pickFillColor color
  | Act_settle i r => settle_write i ;; _updateCoreDrawingConfig_resume r
  end.

Definition perform_all (acts : list action) (st : State) : State :=
  fold_left (fun st a => exec (act a) st) acts st.

(** The ranges the palette keeps the four numeric fields in: a width from
    1, a stroke opacity from 0.05, a fill opacity and a curve factor
    from 0. *)
Definition in_palette_range (b : Brush.t) : Prop :=
  number_at_least 1 (Brush.strokeWidth b) /\
  number_at_least 0.05 (Brush.strokeAlpha b) /\
  number_at_least 0 (Brush.fillAlpha b) /\
  number_at_least 0 (Brush.bezierFactor b).

(** A block of statements that keeps a property of the brush. *)
Definition keeps (I : Brush.t -> Prop) (st st' : State) : Prop :=
  I (brush st) -> I (brush st').

(** A block of statements that always ends normally. *)
Definition never_throws {A} (m : M A) : Prop :=
  forall st, exists a, outcome m st = Normal a.

(** How often the brush was handed to the host for storage. *)
Definition is_lastBrush_write (e : effect) : bool :=
  match e with Settings_set_lastBrush _ => true | _ => false end.

Definition brush_saves (st : State) : nat :=
  List.length (filter is_lastBrush_write (effects st)).

(** *** Showing and hiding the palette *)

(** The module variables [palette] (is there an instance) and
    [_wasDrawingActive], and the calls made on the window. *)
Inductive window_call : Type :=
  | New_BrushPalette
  | Render_true
  | Close.

Record Visibility : Type := mkVisibility {
  palette : bool;
  _wasDrawingActive : bool;
  window_calls : list window_call
}.

Definition visibility_at_load : Visibility := mkVisibility false false [].

(** [function _showPalette()] and [function _hidePalette()]; [rendered] is
    [palette.rendered], which the host keeps. *)
Definition _showPalette (v : Visibility) : Visibility :=
  let v :=
    if negb (palette v)
    then mkVisibility true (_wasDrawingActive v)
                      (window_calls v ++ [New_BrushPalette])
    else v in
  mkVisibility (palette v) (_wasDrawingActive v) (window_calls v ++ [Render_true]).

Definition _hidePalette (rendered : bool) (v : Visibility) : Visibility :=
  if andb (palette v) rendered
  then mkVisibility (palette v) (_wasDrawingActive v) (window_calls v ++ [Close])
  else v.

(** [Hooks.on("renderSceneControls", ...)] and
    [Hooks.on("canvasTearDown", ...)]. *)
Definition renderSceneControls (env : Env) (rendered : bool) (v : Visibility)
  : Visibility :=
  let isDrawingActive := _isDrawingToolActive env in
  let v :=
    if andb isDrawingActive (negb (_wasDrawingActive v)) then _showPalette v
    else if andb (negb isDrawingActive) (_wasDrawingActive v)
         then _hidePalette rendered v
         else v in
  mkVisibility (palette v) isDrawingActive (window_calls v).

Definition canvasTearDown (rendered : bool) (v : Visibility) : Visibility :=
  let v := _hidePalette rendered v in
  mkVisibility (palette v) false (window_calls v).

Inductive scene_event : Type :=
  | RenderSceneControls (env : Env) (rendered : bool)
  | CanvasTearDown (rendered : bool).

Definition scene_step (ev : scene_event) (v : Visibility) : Visibility :=
  match ev with
  | RenderSceneControls env rendered => renderSceneControls env rendered v
  | CanvasTearDown rendered => canvasTearDown rendered v
  end.

Definition scene_run (evs : list scene_event) (v : Visibility) : Visibility :=
  fold_left (fun v ev => scene_step ev v) evs v.

Definition count_call (c : window_call) (v : Visibility) : nat :=
  List.length
    (filter (fun c' => match c, c' with
                       | New_BrushPalette, New_BrushPalette => true
                       | Render_true, Render_true => true
                       | Close, Close => true
                       | _, _ => false
                       end) (window_calls v)).


(** Without an instance no call was made on the window; with one, it was
    created once. *)
Definition palette_created_once (v : Visibility) : Prop :=
  if palette v
  then count_call New_BrushPalette v = 1%nat
  else window_calls v = [].

(** *** The handler of [updateSetting] on a configuration object *)

(** The notification of a write of [config] to
    [core.defaultDrawingConfig]. *)
Definition config_setting (config : Drawing.t) : Setting :=
  mkSetting "core.defaultDrawingConfig" (CObject config).

(** The four tests of the handler. *)
Definition differs_strokeColor (c : Drawing.t) (b : Brush.t) : bool :=
  ToBoolean (Drawing.strokeColor c)
  && (Drawing.strokeColor c !== Brush.strokeColor b).
Definition differs_strokeAlpha (c : Drawing.t) (b : Brush.t) : bool :=
  (Drawing.strokeAlpha c !== VUndefined)
  && (Drawing.strokeAlpha c !== Brush.strokeAlpha b).
Definition differs_fillColor (c : Drawing.t) (b : Brush.t) : bool :=
  ToBoolean (Drawing.fillColor c)
  && (Drawing.fillColor c !== Brush.fillColor b).
Definition differs_fillAlpha (c : Drawing.t) (b : Brush.t) : bool :=
  (Drawing.fillAlpha c !== VUndefined)
  && (Drawing.fillAlpha c !== Brush.fillAlpha b).

(** [changed], and the brush the handler leaves. *)
Definition sync_changed (c : Drawing.t) (b : Brush.t) : bool :=
  orb (differs_strokeColor c b)
      (orb (differs_strokeAlpha c b)
           (orb (differs_fillColor c b) (differs_fillAlpha c b))).

Definition sync_brush (c : Drawing.t) (b : Brush.t) : Brush.t :=
  Brush.mk
    (if differs_strokeColor c b
     then Drawing.strokeColor c else Brush.strokeColor b)
    (Brush.strokeWidth b)
    (if differs_strokeAlpha c b
     then Math_max (num 0.05) (Number (Drawing.strokeAlpha c) || num 1)
     else Brush.strokeAlpha b)
    (Brush.strokeStyle b)
    (Brush.fillType b)
    (if differs_fillColor c b
     then Drawing.fillColor c else Brush.fillColor b)
    (if differs_fillAlpha c b
     then Math_max (num 0) (Number (Drawing.fillAlpha c) || num 0)
     else Brush.fillAlpha b)
    (Brush.bezierFactor b).


(** *** Storing the brush and reading it back *)

(** [{ ...brush }], what [saveBrushSettings] hands to the host as
    [lastBrush]: the eight properties of the brush, in the order of
    [DEFAULT_BRUSH]. *)
Definition brush_entries (b : Brush.t) : list (string * value) :=
  [ ("strokeColor", Brush.strokeColor b);
    ("strokeWidth", Brush.strokeWidth b);
    ("strokeAlpha", Brush.strokeAlpha b);
    ("strokeStyle", Brush.strokeStyle b);
    ("fillType", Brush.fillType b);
    ("fillColor", Brush.fillColor b);
    ("fillAlpha", Brush.fillAlpha b);
    ("bezierFactor", Brush.bezierFactor b) ].

(** A finite number from [lo], and a string that is not empty: values a
    stored setting holds as they were written. *)
Definition finite_at_least (lo : Q) (v : value) : Prop :=
  exists q, v = VNum (Fin q) /\ lo <= q.

Definition nonempty_string (v : value) : Prop :=
  exists s, v = VStr s /\ s <> ""%string.

(** A brush as the palette keeps it: colours and stroke style are strings
    that are not empty, the fill type is a finite number, and the other four
    are finite numbers within the ranges of the palette. *)
Definition palette_brush (b : Brush.t) : Prop :=
  nonempty_string (Brush.strokeColor b)
  /\ finite_at_least 1 (Brush.strokeWidth b)
  /\ finite_at_least 0.05 (Brush.strokeAlpha b)
  /\ nonempty_string (Brush.strokeStyle b)
  /\ (exists q, Brush.fillType b = VNum (Fin q))
  /\ nonempty_string (Brush.fillColor b)
  /\ finite_at_least 0 (Brush.fillAlpha b)
  /\ finite_at_least 0 (Brush.bezierFactor b).

(** A colour of the brush that is a [#] and six hexadecimal digits. *)
Definition is_hex_value (v : value) : bool :=
  match v with
  | VStr s => is_hex_color s
  | _ => false
  end.

(** *** Inputs for the statements on the rest of the module *)

(** A faint, dashed red stroke of width 12 with a pattern fill that is
    fully transparent. *)
Definition brush_custom : Brush.t :=
  Brush.mk (VStr "#ff0000") (num 12) (num 0.05) (VStr "dashed") (num 2)
           (VStr "#00ff00") (num 0) (num 0.5).

(** A width that is no number and an opacity of zero typed into the
    palette, a drag start, and its write rejected by the host. *)
Definition actions_with_bad_input : list action :=
  [ Act_input (mkInput "strokeWidth" "wide" false true);
    Act_input (mkInput "strokeAlpha" "0" false true);
    Act_dragStart;
    Act_settle 0 (Rejected (VStr "Error")) ].

(** A colour typed into the text field beside the stroke colour picker. *)
Definition input_stroke_text : InputEvent :=
  mkInput "strokeColorText" "#12abEF" false true.

(** The state at load with a name typed into the preset field. *)
Definition state_with_name : State :=
  with_presetName (Some " Mine ") (with_brush brush_custom initial_state).


(* ===================================================================== *)
(** ** Numbers: order and maximum *)
(* ===================================================================== *)

Lemma num_max_lower_bound (c : Q) (n : number) :
  is_NaN n = false -> num_le (Fin c) (num_max (Fin c) n) = true.
Proof.
  destruct n as [| | |y]; simpl; intros Hn; try discriminate; auto.
  - apply Qle_bool_iff, Qle_refl.
  - destruct (Qle_bool y c) eqn:E; simpl.
    + apply Qle_bool_iff, Qle_refl.
    + apply Qle_bool_iff. apply Qlt_le_weak. apply Qnot_le_lt.
      intro H. apply Qle_bool_iff in H. congruence.
Qed.

(** [Number(v) || d] is never [NaN] when the default [d] is a number. *)
Lemma Number_or_default (v : value) (d : Q) :
  exists n, (Number v || num d) = VNum n /\ is_NaN n = false.
Proof.
  unfold js_or, Number. destruct (ToBoolean (VNum (ToNumber v))) eqn:E.
  - exists (ToNumber v). split; [reflexivity|].
    destruct (ToNumber v); simpl in *; congruence.
  - exists (Fin d). split; reflexivity.
Qed.

(** [Number(v) ?? d] is [Number(v)]: a number is never nullish. *)
Lemma Number_coalesce (v d : value) : (Number v ?? d) = Number v.
Proof. reflexivity. Qed.

(** [Math.max(c, Number(v) || d)] is a number from [c] up. *)
Lemma clamp_from_below (c d : Q) (v : value) :
  number_at_least c (Math_max (num c) (Number v || num d)).
Proof.
  destruct (Number_or_default v d) as [n [Hn Hnan]].
  rewrite Hn. unfold Math_max, num. simpl ToNumber.
  eexists. split; [reflexivity|]. now apply num_max_lower_bound.
Qed.

(** [x >= 0 ? x : d] for [x = Number(v) ?? _] is a number from 0 up. *)
Lemma keep_if_not_negative (v x : value) (d : Q) :
  0 <= d ->
  number_at_least 0
    (if js_ge (Number v ?? x) (num 0) then (Number v ?? x) else num d).
Proof.
  intros Hd. rewrite Number_coalesce. unfold js_ge, Number, num_ge, num. simpl ToNumber.
  destruct (num_le (Fin 0) (ToNumber v)) eqn:E.
  - eexists; split; [reflexivity|exact E].
  - eexists; split; [reflexivity|]. simpl. now apply Qle_bool_iff.
Qed.

(* ===================================================================== *)
(** ** The data applied to a new drawing *)
(* ===================================================================== *)

(** The pattern fill type survives only with a texture. *)
Lemma pattern_needs_texture (v texture : value) :
  let fillType := Number v ?? num 0 in
  ((if (fillType === num 2) && js_not texture then num 1 else fillType)
     === num 2) = true ->
  ToBoolean texture = true.
Proof.
  cbv zeta. rewrite Number_coalesce.
  destruct (Number v === num 2) eqn:E; cbn [andb].
  - unfold js_not. destruct (ToBoolean texture); cbn [negb]; [reflexivity|].
    intros H. vm_compute in H. discriminate.
  - rewrite E. discriminate.
Qed.

Lemma getNewDrawingData_valid (brush : Brush.t) (data : Drawing.t) :
  meets_host_constraints (Drawing.texture data) (_getNewDrawingData brush data).
Proof.
  unfold meets_host_constraints, _getNewDrawingData; cbv zeta; drawing_fields.
  repeat split.
  - apply clamp_from_below.
  - apply clamp_from_below.
  - apply pattern_needs_texture.
  - apply keep_if_not_negative. lra.
  - apply keep_if_not_negative. lra.
Qed.

Lemma updateData_valid (adt : bool) (brush : Brush.t) (data : Drawing.t) :
  meets_host_constraints (Drawing.texture data)
                         (preCreateDrawing_updateData adt brush data).
Proof.
  unfold meets_host_constraints, preCreateDrawing_updateData; cbv zeta;
    drawing_fields.
  repeat split.
  - apply clamp_from_below.
  - apply clamp_from_below.
  - apply pattern_needs_texture.
  - apply keep_if_not_negative. lra.
  - apply keep_if_not_negative. lra.
Qed.

(** C2.  For every brush, whatever its fields hold (missing, not a number,
    [NaN]), the data applied when a drawing is created meets the host's
    constraints: [strokeWidth] is a number [>= 1], [strokeAlpha] a number
    [>= 0.1], [fillType] is 2 only if the drawing data has a texture, and
    [fillAlpha] and [bezierFactor] are numbers [>= 0].  This holds for the
    data the [_getNewDrawingData] wrapper returns, for the update the
    [preCreateDrawing] hook builds, and for the document after that
    update. *)
Theorem new_drawing_meets_host_constraints
    (adt : bool) (brush : Brush.t) (document data : Drawing.t) :
  meets_host_constraints (Drawing.texture data) (_getNewDrawingData brush data)
  /\ meets_host_constraints (Drawing.texture data)
       (preCreateDrawing_updateData adt brush data)
  /\ meets_host_constraints (Drawing.texture data)
       (preCreateDrawing adt brush document data).
Proof.
  split; [apply getNewDrawingData_valid|].
  split; [apply updateData_valid|].
  pose proof (updateData_valid adt brush data) as H.
  unfold meets_host_constraints, preCreateDrawing, updateSource in *.
  drawing_fields. exact H.
Qed.

(* ===================================================================== *)
(** ** [_validateBrush] and the clamping invariant *)
(* ===================================================================== *)

Example validateBrush_default : _validateBrush DEFAULT_BRUSH = DEFAULT_BRUSH.
Proof. reflexivity. Qed.

Example validateBrush_all_invalid :
  _validateBrush brush_all_invalid
  = Brush.mk (VStr "#000000") (num 8) (num 1) (VStr "solid") (VNum NaN)
             (VStr "#ffffff") (VNum NaN) (VNum NaN).
Proof. reflexivity. Qed.

(** What [_validateBrush] does achieve: the two stroke fields are clamped,
    and the fill opacity, the fill type and the curve factor are numbers,
    [NaN] and the negative ones included. *)
Lemma validateBrush_stroke_clamped (b : Brush.t) :
  number_at_least 1 (Brush.strokeWidth (_validateBrush b))
  /\ number_at_least 0.1 (Brush.strokeAlpha (_validateBrush b))
  /\ Brush.fillAlpha (_validateBrush b) = Number (Brush.fillAlpha b)
  /\ Brush.bezierFactor (_validateBrush b) = Number (Brush.bezierFactor b)
  /\ Brush.fillType (_validateBrush b) = Number (Brush.fillType b).
Proof.
  unfold _validateBrush; cbv zeta; brush_fields.
  repeat split; apply clamp_from_below.
Qed.

(** The sibling [_loadPersistedBrush] does clamp all four fields (its
    stroke opacity from 0.05). *)
Lemma loadPersistedBrush_clamps (b : Brush.t) :
  let b' := _loadPersistedBrush_clamp b in
  number_at_least 1 (Brush.strokeWidth b')
  /\ number_at_least 0.05 (Brush.strokeAlpha b')
  /\ number_at_least 0 (Brush.fillAlpha b')
  /\ number_at_least 0 (Brush.bezierFactor b').
Proof.
  unfold _loadPersistedBrush_clamp; cbv zeta; brush_fields.
  repeat split; apply clamp_from_below.
Qed.

(** A value that is [NaN] or negative is not a number from 0 up. *)
Lemma not_at_least_NaN (lo : Q) : ~ number_at_least lo (VNum NaN).
Proof. intros [n [E H]]. inversion E; subst. discriminate. Qed.

(** C3.  [_validateBrush] run on a brush whose [fillAlpha] is [NaN] and
    whose [bezierFactor] is -1 leaves both as they are: [Number(x) ?? d]
    never takes the default, so the clamping invariant does not hold after
    the call. *)
Theorem validateBrush_keeps_invalid_fill :
  Brush.fillAlpha (_validateBrush brush_bad_fill) = VNum NaN
  /\ Brush.bezierFactor (_validateBrush brush_bad_fill) = num (-1)
  /\ ~ brush_clamped (_validateBrush brush_bad_fill).
Proof.
  split; [reflexivity|]. split; [reflexivity|].
  intros [_ [_ [H _]]].
  change (Brush.fillAlpha (_validateBrush brush_bad_fill)) with (VNum NaN) in H.
  exact (not_at_least_NaN 0 H).
Qed.

(* ===================================================================== *)
(** ** Defaults for fields that are not numbers *)
(* ===================================================================== *)

Lemma or_default_of_NaN (v : value) (d : Q) :
  ToNumber v = NaN -> (Number v || num d) = num d.
Proof. intros H. unfold js_or, Number. rewrite H. reflexivity. Qed.

Lemma max_of_default (c d : Q) :
  Qle_bool d c = false -> Math_max (num c) (num d) = num d.
Proof. intros H. unfold Math_max, num. simpl. rewrite H. reflexivity. Qed.

Lemma ge_default_of_NaN (v x : value) (d : Q) :
  ToNumber v = NaN ->
  (if js_ge (Number v ?? x) (num 0) then (Number v ?? x) else num d) = num d.
Proof.
  intros H. rewrite Number_coalesce. unfold js_ge, Number, num_ge. simpl ToNumber.
  rewrite H. reflexivity.
Qed.

Lemma or_default_of_falsy (v d : value) : ToBoolean v = false -> (v || d) = d.
Proof. intros H. unfold js_or. now rewrite H. Qed.

(** The defaults a drawing-data object [d] takes for the fields of the
    brush that convert to [NaN] or, for the colours, are falsy. *)
Lemma defaults_of_wrapper (brush : Brush.t) (data : Drawing.t) :
  let d := _getNewDrawingData brush data in
  (ToNumber (Brush.strokeWidth brush) = NaN -> Drawing.strokeWidth d = num 8)
  /\ (ToNumber (Brush.strokeAlpha brush) = NaN -> Drawing.strokeAlpha d = num 1)
  /\ (ToNumber (Brush.fillAlpha brush) = NaN -> Drawing.fillAlpha d = num 0.5)
  /\ (ToNumber (Brush.bezierFactor brush) = NaN -> Drawing.bezierFactor d = num 0)
  /\ (ToBoolean (Brush.strokeColor brush) = false ->
      Drawing.strokeColor d = VStr "#000000")
  /\ (ToBoolean (Brush.fillColor brush) = false ->
      Drawing.fillColor d = VStr "#ffffff").
Proof.
  unfold _getNewDrawingData; cbv zeta; drawing_fields.
  repeat split; intros H.
  - rewrite (or_default_of_NaN _ 8 H). now apply max_of_default.
  - rewrite (or_default_of_NaN _ 1 H). now apply max_of_default.
  - now apply ge_default_of_NaN.
  - now apply ge_default_of_NaN.
  - now apply or_default_of_falsy.
  - now apply or_default_of_falsy.
Qed.

(** C4, amended.  For every brush, a numeric field that converts to [NaN]
    is replaced by its default in the data applied to a new drawing, by the
    [preCreateDrawing] hook and by the [_getNewDrawingData] wrapper alike:
    [strokeWidth] by 8, [strokeAlpha] by 1, [fillAlpha] by 0.5 and
    [bezierFactor] by 0; a falsy [strokeColor] is replaced by ["#000000"]
    and a falsy [fillColor] by ["#ffffff"]. *)
Theorem NaN_fields_fall_back_to_defaults
    (adt : bool) (brush : Brush.t) (data : Drawing.t) :
  let d := preCreateDrawing_updateData adt brush data in
  let d' := _getNewDrawingData brush data in
  (ToNumber (Brush.strokeWidth brush) = NaN ->
     Drawing.strokeWidth d = num 8 /\ Drawing.strokeWidth d' = num 8)
  /\ (ToNumber (Brush.strokeAlpha brush) = NaN ->
     Drawing.strokeAlpha d = num 1 /\ Drawing.strokeAlpha d' = num 1)
  /\ (ToNumber (Brush.fillAlpha brush) = NaN ->
     Drawing.fillAlpha d = num 0.5 /\ Drawing.fillAlpha d' = num 0.5)
  /\ (ToNumber (Brush.bezierFactor brush) = NaN ->
     Drawing.bezierFactor d = num 0 /\ Drawing.bezierFactor d' = num 0)
  /\ (ToBoolean (Brush.strokeColor brush) = false ->
     Drawing.strokeColor d = VStr "#000000"
     /\ Drawing.strokeColor d' = VStr "#000000")
  /\ (ToBoolean (Brush.fillColor brush) = false ->
     Drawing.fillColor d = VStr "#ffffff"
     /\ Drawing.fillColor d' = VStr "#ffffff").
Proof.
  cbv zeta.
  destruct (defaults_of_wrapper brush data) as (W1 & W2 & W3 & W4 & W5 & W6).
  cbv zeta in *.
  unfold preCreateDrawing_updateData; cbv zeta; drawing_fields.
  split; [intros H; split; [|now apply W1]|].
  { rewrite (or_default_of_NaN _ 8 H). now apply max_of_default. }
  split; [intros H; split; [|now apply W2]|].
  { rewrite (or_default_of_NaN _ 1 H). now apply max_of_default. }
  split; [intros H; split; [|now apply W3]|].
  { now apply ge_default_of_NaN. }
  split; [intros H; split; [|now apply W4]|].
  { now apply ge_default_of_NaN. }
  split; [intros H; split; [|now apply W5]|].
  { now apply or_default_of_falsy. }
  intros H; split; [|now apply W6].
  now apply or_default_of_falsy.
Qed.

(* ===================================================================== *)
(** ** Reasoning on statements, one construct at a time *)
(* ===================================================================== *)

Section Respecting.

Variable R : State -> State -> Prop.
Hypothesis R_refl : forall st, R st st.
Hypothesis R_trans : forall a b c, R a b -> R b c -> R a c.

Lemma respects_ret {A} (a : A) : respects R (ret a).
Proof. intros st. apply R_refl. Qed.

Lemma respects_throw {A} (e : value) : respects R (@throw A e).
Proof. intros st. apply R_refl. Qed.

Lemma respects_get {A} (proj : State -> A) : respects R (get proj).
Proof. intros st. apply R_refl. Qed.

Lemma respects_lift_completion {A} (c : completion A) :
  respects R (lift_completion c).
Proof. intros st. apply R_refl. Qed.

Lemma respects_await (r : settled) : respects R (await r).
Proof. destruct r; intros st; apply R_refl. Qed.

Lemma respects_modify (f : State -> State) :
  (forall st, R st (f st)) -> respects R (modify f).
Proof. intros H st. apply H. Qed.

Lemma respects_bind {A B} (m : M A) (k : A -> M B) :
  respects R m -> (forall a, respects R (k a)) -> respects R (bind m k).
Proof.
  intros Hm Hk st. unfold exec, bind.
  specialize (Hm st). unfold exec in Hm.
  destruct (m st) as [[a|e] st'] eqn:E; simpl in *.
  - apply R_trans with st'; [exact Hm|]. apply (Hk a st').
  - exact Hm.
Qed.

Lemma respects_try_catch {A} (body : M A) (handler : value -> M A) :
  respects R body -> (forall e, respects R (handler e)) ->
  respects R (try_catch body handler).
Proof.
  intros Hb Hh st. unfold exec, try_catch.
  specialize (Hb st). unfold exec in Hb.
  destruct (body st) as [[a|e] st'] eqn:E; simpl in *.
  - exact Hb.
  - apply R_trans with st'; [exact Hb|]. apply (Hh e st').
Qed.

End Respecting.

(** One construct of a statement at a time; what is left are the
    assignments. *)
Ltac respects_step refl trans :=
  cbv beta zeta;
  lazymatch goal with
  | |- respects _ (ret _) => apply (respects_ret _ refl)
  | |- respects _ (throw _) => apply (respects_throw _ refl)
  | |- respects _ (get _) => apply (respects_get _ refl)
  | |- respects _ (await _) => apply (respects_await _ refl)
  | |- respects _ (lift_completion _) => apply (respects_lift_completion _ refl)
  | |- respects _ (bind _ _) => apply (respects_bind _ trans); [|intros ?]
  | |- respects _ (try_catch _ _) =>
      apply (respects_try_catch _ trans); [|intros ?]
  | |- respects _ (if ?c then _ else _) => destruct c
  | |- respects _ (match ?x with _ => _ end) => destruct x
  end.

(** *** The frame of the brush *)

Lemma same_frame_refl (st : State) : same_frame st st.
Proof. repeat split. Qed.

Lemma same_frame_trans (a b c : State) :
  same_frame a b -> same_frame b c -> same_frame a c.
Proof.
  unfold same_frame. intros (H1 & H2 & H3 & H4) (K1 & K2 & K3 & K4).
  repeat split; congruence.
Qed.

Lemma same_brush_refl (st : State) : same_brush st st.
Proof. reflexivity. Qed.

Lemma same_brush_trans (a b c : State) :
  same_brush a b -> same_brush b c -> same_brush a c.
Proof. unfold same_brush. congruence. Qed.

Lemma same_brush_frame (st st' : State) : same_brush st st' -> same_frame st st'.
Proof. unfold same_brush, same_frame. intros ->. repeat split. Qed.

Lemma perform_same_brush (e : effect) : respects same_brush (perform e).
Proof. intros st. reflexivity. Qed.

Lemma settings_set_same_brush (config : Drawing.t) :
  respects same_brush (settings_set_defaultDrawingConfig config).
Proof. intros st. reflexivity. Qed.

(** No half of [_updateCoreDrawingConfig] writes the brush, however the
    write settles. *)
Lemma begin_same_brush (env : Env) :
  respects same_brush (_updateCoreDrawingConfig_begin env).
Proof. intros st. reflexivity. Qed.

Lemma resume_same_brush (r : settled) :
  respects same_brush (_updateCoreDrawingConfig_resume r).
Proof. intros st. destruct r; reflexivity. Qed.

Lemma plain_begin_same_brush :
  respects same_brush _updateCoreDrawingConfig_plain_begin.
Proof. intros st. reflexivity. Qed.

Lemma plain_resume_same_brush (r : settled) :
  respects same_brush (_updateCoreDrawingConfig_plain_resume r).
Proof. intros st. destruct r; reflexivity. Qed.

Lemma saveBrushSettings_same_brush (env : Env) :
  respects same_brush (saveBrushSettings env).
Proof. intros st. reflexivity. Qed.

Lemma respects_weaken {A} (R R' : State -> State -> Prop) (m : M A) :
  (forall st st', R st st' -> R' st st') -> respects R m -> respects R' m.
Proof. intros H Hm st. apply H, Hm. Qed.

(** An external change while the drawings control is active: the colour
    and the opacity of the stroke are taken over, the width, the fill type
    and the curve factor of the notified configuration are not, and the
    module writes its own configuration back. *)
Example updateSetting_external_red :
  let st := exec (updateSetting env_drawing external_red) initial_state in
  brush st
  = Brush.set_strokeAlpha (num 0.4)
      (Brush.set_strokeColor (VStr "#ff0000") DEFAULT_BRUSH)
  /\ _selfUpdatingCoreConfig st = true
  /\ List.length (inflight st) = 1%nat.
Proof. repeat split. Qed.

(** C9.  Whatever the notified setting holds and whatever the host reports,
    the [updateSetting] handler leaves [strokeWidth], [strokeStyle],
    [fillType] and [bezierFactor] of the brush as they were: it writes at
    most [strokeColor], [strokeAlpha], [fillColor] and [fillAlpha]. *)
Theorem updateSetting_frame (env : Env) (setting : Setting) (st : State) :
  let b := brush st in
  let b' := brush (exec (updateSetting env setting) st) in
  Brush.strokeWidth b' = Brush.strokeWidth b
  /\ Brush.strokeStyle b' = Brush.strokeStyle b
  /\ Brush.fillType b' = Brush.fillType b
  /\ Brush.bezierFactor b' = Brush.bezierFactor b.
Proof.
  cbv zeta. revert st.
  change (respects same_frame (updateSetting env setting)).
  unfold updateSetting.
  repeat (respects_step same_frame_refl same_frame_trans);
    try (apply respects_modify; intros st; repeat split);
    try (apply (respects_weaken same_brush); [apply same_brush_frame|]);
    first [ apply saveBrushSettings_same_brush | apply perform_same_brush ].
Qed.

(* ===================================================================== *)
(** ** A rejected write *)
(* ===================================================================== *)

(** C5.  When the host rejects the write of [core.defaultDrawingConfig] with
    any error [e], [_updateCoreDrawingConfig] ends normally (nothing is
    thrown to the caller), the brush is what it was, and in the guard
    revision the flag is [false] again.  This holds for a whole call, and
    for the part that runs when the promise settles, in whatever state that
    part finds the module; the revisions without the guard end normally
    with the brush unchanged as well. *)
Theorem rejected_write_is_swallowed (env : Env) (e : value) (st : State) :
  (outcome (_updateCoreDrawingConfig env (Rejected e)) st = Normal tt
   /\ brush (exec (_updateCoreDrawingConfig env (Rejected e)) st) = brush st
   /\ _selfUpdatingCoreConfig
        (exec (_updateCoreDrawingConfig env (Rejected e)) st) = false)
  /\ (outcome (_updateCoreDrawingConfig_resume (Rejected e)) st = Normal tt
      /\ brush (exec (_updateCoreDrawingConfig_resume (Rejected e)) st) = brush st
      /\ _selfUpdatingCoreConfig
           (exec (_updateCoreDrawingConfig_resume (Rejected e)) st) = false)
  /\ (outcome (_updateCoreDrawingConfig_plain (Rejected e)) st = Normal tt
      /\ brush (exec (_updateCoreDrawingConfig_plain (Rejected e)) st) = brush st)
  /\ (outcome (_updateCoreDrawingConfig_plain_resume (Rejected e)) st = Normal tt
      /\ brush (exec (_updateCoreDrawingConfig_plain_resume (Rejected e)) st)
         = brush st).
Proof. repeat split. Qed.

(** The rejection is reported on the console and nowhere else. *)
Lemma rejected_write_is_logged (e : value) (st : State) :
  effects (exec (_updateCoreDrawingConfig_resume (Rejected e)) st)
  = (effects st ++ [Console_warn warn_core])%list.
Proof. reflexivity. Qed.

(* ===================================================================== *)
(** ** The guard flag *)
(* ===================================================================== *)

(** While the flag is set the handler returns at once: the state, and the
    brush in it, are what they were. *)
Lemma updateSetting_ignored_while_flag_set
    (env : Env) (setting : Setting) (st : State) :
  _selfUpdatingCoreConfig st = true ->
  updateSetting env setting st = (Normal tt, st).
Proof.
  intros H. unfold updateSetting.
  destruct (negb (setting_key setting =? "core.defaultDrawingConfig")%string);
    [reflexivity|].
  unfold bind, get. rewrite H. reflexivity.
Qed.

(** A call with no other call of the function under way: the flag is set
    from the moment the write is issued, every notification that arrives
    before the write settles is ignored, and the flag is cleared when the
    write settles, resolved or rejected. *)
Lemma flag_around_a_single_write
    (env : Env) (notified : list (Env * Setting)) (r : settled) (st : State) :
  inflight st = [] ->
  let issued := step (Call_updateCoreDrawingConfig env) st in
  let during :=
    run (map (fun n => UpdateSetting (fst n) (snd n)) notified) issued in
  let settled := step (Settle 0 r) during in
  _selfUpdatingCoreConfig issued = true
  /\ during = issued
  /\ brush during = brush st
  /\ _selfUpdatingCoreConfig settled = false
  /\ inflight settled = []
  /\ brush settled = brush st.
Proof.
  intros Hin. cbv zeta.
  set (issued := step (Call_updateCoreDrawingConfig env) st).
  assert (Hflag : _selfUpdatingCoreConfig issued = true) by reflexivity.
  assert (Hrun : run (map (fun n => UpdateSetting (fst n) (snd n)) notified) issued
                 = issued).
  { induction notified as [|n ns IH]; [reflexivity|].
    simpl. unfold exec.
    rewrite (updateSetting_ignored_while_flag_set (fst n) (snd n) issued Hflag).
    exact IH. }
  rewrite Hrun.
  split; [exact Hflag|]. split; [reflexivity|]. split; [reflexivity|].
  unfold issued. destruct st as [b f writes stored name pos done].
  simpl in Hin. subst writes. destruct r; repeat split.
Qed.

(** *** Writes that do not overlap *)

Lemma only_issues_refl (st : State) : only_issues st st.
Proof.
  exists []. rewrite app_nil_r. repeat split. intros H. now contradiction H.
Qed.

Lemma only_issues_trans (a b c : State) :
  only_issues a b -> only_issues b c -> only_issues a c.
Proof.
  intros (l1 & E1 & N1 & S1) (l2 & E2 & N2 & S2).
  exists (l1 ++ l2)%list. split; [|split].
  - rewrite E2, E1. now rewrite app_assoc.
  - intros H. apply app_eq_nil in H as [-> ->].
    rewrite (N2 eq_refl). now apply N1.
  - intros H. destruct l2 as [|x l2].
    + rewrite (N2 eq_refl). apply S1. now rewrite app_nil_r in H.
    + now apply S2.
Qed.

Lemma begin_only_issues (env : Env) :
  respects only_issues (_updateCoreDrawingConfig_begin env).
Proof.
  intros st. exists [core_config env (brush st)].
  repeat split. intros H. discriminate.
Qed.

Lemma saveBrushSettings_only_issues (env : Env) :
  respects only_issues (saveBrushSettings env).
Proof.
  intros st. exists [core_config env (brush st)].
  repeat split. intros H. discriminate.
Qed.

Lemma perform_only_issues (e : effect) : respects only_issues (perform e).
Proof. intros st. apply (only_issues_refl st). Qed.

Lemma updateSetting_only_issues (env : Env) (setting : Setting) :
  respects only_issues (updateSetting env setting).
Proof.
  unfold updateSetting.
  repeat (respects_step only_issues_refl only_issues_trans);
    try (apply respects_modify; intros st; exact (only_issues_refl st));
    first [ apply saveBrushSettings_only_issues | apply perform_only_issues ].
Qed.

(** A step either only issues writes, or settles one and clears the flag. *)
Lemma step_cases (ev : event) (st : State) :
  only_issues st (step ev st)
  \/ (exists i, (i < List.length (inflight st))%nat
                /\ inflight (step ev st) = remove_nth i (inflight st)
                /\ _selfUpdatingCoreConfig (step ev st) = false).
Proof.
  destruct ev as [env|i r|env|env|env setting]; simpl.
  - left. apply begin_only_issues.
  - destruct (Nat.ltb i (List.length (inflight st))) eqn:E.
    + right. exists i. apply Nat.ltb_lt in E. destruct r; repeat split; auto.
    + left. apply only_issues_refl.
  - left. apply saveBrushSettings_only_issues.
  - left. exists [core_config env (_validateBrush (brush st))].
    repeat split. intros H. discriminate.
  - left. apply updateSetting_only_issues.
Qed.

Lemma guard_tracks_writes_step (ev : event) (st : State) :
  guard_tracks_writes st ->
  (List.length (inflight st) <= 1)%nat ->
  (List.length (inflight (step ev st)) <= 1)%nat ->
  guard_tracks_writes (step ev st).
Proof.
  unfold guard_tracks_writes. intros G L L'.
  destruct (step_cases ev st) as [(l & E & N & S)|(i & Hi & E & F)].
  - destruct l as [|x l].
    + rewrite app_nil_r in E. rewrite E, (N eq_refl). exact G.
    + rewrite S by discriminate. rewrite E.
      rewrite length_app. simpl. now rewrite Nat.add_succ_r.
  - rewrite F, E.
    destruct (inflight st) as [|c [|c' l]]; simpl in *; try lia.
    assert (i = 0)%nat as -> by lia. reflexivity.
Qed.

(** As long as no two writes are in flight at once, the flag is set exactly
    while a write is in flight, in every state of the run. *)
Lemma guard_tracks_writes_one_at_a_time (evs : list event) (st : State) :
  guard_tracks_writes st ->
  one_at_a_time evs st ->
  Forall guard_tracks_writes (trace evs st).
Proof.
  revert st. induction evs as [|ev evs IH]; intros st G H; simpl.
  - constructor.
  - unfold one_at_a_time in H. simpl in H.
    inversion H as [|? ? L T]; subst. inversion T as [|? ? L' T']; subst.
    assert (G' : guard_tracks_writes (step ev st))
      by (now apply guard_tracks_writes_step).
    constructor; [exact G'|]. apply IH; [exact G'|].
    unfold one_at_a_time. constructor; assumption.
Qed.

(** Overlapping or not, once every write has settled the flag is down. *)
Lemma idle_means_clear_step (ev : event) (st : State) :
  idle_means_clear st -> idle_means_clear (step ev st).
Proof.
  unfold idle_means_clear. intros I H.
  destruct (step_cases ev st) as [(l & E & N & S)|(i & Hi & E & F)].
  - rewrite E in H. apply app_eq_nil in H as [H ->].
    rewrite (N eq_refl). now apply I.
  - exact F.
Qed.

Lemma idle_means_clear_run (evs : list event) (st : State) :
  idle_means_clear st -> idle_means_clear (run evs st).
Proof.
  revert st. induction evs as [|ev evs IH]; intros st I; simpl; [exact I|].
  apply IH. now apply idle_means_clear_step.
Qed.

(** Two calls that overlap, in any state without a write in flight and
    however the first write settles: the flag is down while the second
    write is still in flight. *)
Lemma overlap_drops_guard (env env' : Env) (r : settled) (st : State) :
  inflight st = [] ->
  let st' :=
    run [ Call_updateCoreDrawingConfig env;
          Call_updateCoreDrawingConfig env';
          Settle 0 r ] st in
  _selfUpdatingCoreConfig st' = false
  /\ inflight st' = [core_config env' (brush st)].
Proof.
  intros H. destruct st as [b f writes stored name pos done].
  simpl in H. subst writes. destruct r; split; reflexivity.
Qed.

(** C1.  Two calls of [saveBrushSettings] in a row put two writes of
    [core.defaultDrawingConfig] in flight.  When the host settles the first
    one, the call that issued it clears [_selfUpdatingCoreConfig] although
    the second write is still in flight; the notification of that second
    write is then taken for an external change and overwrites the opacity
    0.05 of the brush by the 0.1 the module itself had written. *)
Theorem guard_dropped_by_overlapping_writes :
  let st := run overlapping_writes (with_brush brush_faint initial_state) in
  let config := core_config env_drawing brush_faint in
  inflight st = [config]
  /\ _selfUpdatingCoreConfig st = false
  /\ Brush.strokeAlpha (brush st) = num 0.05
  /\ Brush.strokeAlpha (brush (step (own_notification config) st)) = num 0.1.
Proof. cbv zeta. repeat split. Qed.

(* ===================================================================== *)
(** ** Presets *)
(* ===================================================================== *)

Lemma remove_nth_length {A} (i : nat) (l : list A) :
  (i < List.length l)%nat -> S (List.length (remove_nth i l)) = List.length l.
Proof.
  intros H. unfold remove_nth.
  rewrite length_app, length_firstn, length_skipn. lia.
Qed.

Lemma remove_nth_before {A} (i j : nat) (l : list A) :
  (i < List.length l)%nat -> (j < i)%nat ->
  nth_error (remove_nth i l) j = nth_error l j.
Proof.
  intros Hi Hj. unfold remove_nth.
  rewrite nth_error_app1 by (rewrite length_firstn; lia).
  rewrite nth_error_firstn.
  destruct (Nat.ltb_spec j i); [reflexivity|lia].
Qed.

Lemma remove_nth_after {A} (i j : nat) (l : list A) :
  (i < List.length l)%nat -> (i <= j)%nat ->
  nth_error (remove_nth i l) j = nth_error l (S j).
Proof.
  intros Hi Hj. unfold remove_nth.
  rewrite nth_error_app2 by (rewrite length_firstn; lia).
  rewrite length_firstn, nth_error_skipn.
  f_equal. lia.
Qed.

Lemma splice_in_range {A} (i : Z) (l : list A) :
  (0 <= i < Z.of_nat (List.length l))%Z ->
  Array_splice1 (Some i) l = remove_nth (Z.to_nat i) l.
Proof.
  intros H. unfold Array_splice1.
  destruct (Z.ltb_spec i 0); [lia|].
  now rewrite Z.min_l by lia.
Qed.

(** C7.  For every stored list of presets and every index [i] with
    [0 <= i < length], [deletePreset] stores the list without its element
    at [i]: one element fewer, the elements before [i] where they were and
    the elements after [i] one place down, in their order. *)
Theorem deletePreset_removes_exactly_one (st : State) (i : Z) :
  (0 <= i < Z.of_nat (List.length (stored_presets st)))%Z ->
  let old := stored_presets st in
  let new := stored_presets (exec (deletePreset (Some i)) st) in
  presets (exec (deletePreset (Some i)) st)
  = Some (firstn (Z.to_nat i) old ++ skipn (S (Z.to_nat i)) old)%list
  /\ S (List.length new) = List.length old
  /\ (forall j, (j < Z.to_nat i)%nat -> nth_error new j = nth_error old j)
  /\ (forall j, (Z.to_nat i <= j)%nat -> nth_error new j = nth_error old (S j)).
Proof.
  intros H. cbv zeta.
  assert (E : presets (exec (deletePreset (Some i)) st)
              = Some (remove_nth (Z.to_nat i) (stored_presets st))).
  { unfold deletePreset, getPresets, savePresets, exec, bind, get, modify,
      perform, ret, stored_presets. simpl.
    f_equal. apply splice_in_range. exact H. }
  assert (Hi : (Z.to_nat i < List.length (stored_presets st))%nat) by lia.
  assert (En : stored_presets (exec (deletePreset (Some i)) st)
               = remove_nth (Z.to_nat i) (stored_presets st))
    by (unfold stored_presets at 1; now rewrite E).
  rewrite En, E.
  split; [reflexivity|]. split; [now apply remove_nth_length|].
  split; intros j Hj.
  - now apply remove_nth_before.
  - now apply remove_nth_after.
Qed.

Lemma savePreset_named (typed : string) (st : State) :
  presetName st = Some typed ->
  trim typed <> "" ->
  exec savePreset st
  = with_effects
      (effects st ++ [Settings_set_presets
                        (stored_presets st ++ [snapshot (trim typed) (brush st)]);
                      Palette_render])%list
      (with_presetName (Some "")
         (with_presets
            (Some (stored_presets st ++ [snapshot (trim typed) (brush st)])%list)
            st)).
Proof.
  intros Hn Ht.
  unfold savePreset, exec, bind, get. rewrite Hn. cbn [option_map]. cbv iota beta zeta.
  apply String.eqb_neq in Ht. rewrite Ht.
  unfold getPresets, savePresets, bind, get, modify, perform, ret, stored_presets,
    snapshot. simpl. unfold with_effects. simpl.
  rewrite <- app_assoc. reflexivity.
Qed.

Lemma savePreset_blank (st : State) :
  (presetName st = None
   \/ exists typed, presetName st = Some typed /\ trim typed = "") ->
  exec savePreset st
  = with_effects
      (effects st ++ [Notifications_warn "Please enter a preset name"])%list st.
Proof.
  intros [Hn|[typed [Hn Ht]]];
    unfold savePreset, exec, bind, get; rewrite Hn; cbn [option_map];
    cbv iota beta zeta; [reflexivity|].
  rewrite Ht. reflexivity.
Qed.

(** C6.  For every stored list of presets and every name that is not empty
    once trimmed, [savePreset] stores the list with a snapshot of the
    current brush, under the trimmed name, appended at its end: the presets
    already there stay where they were, whatever their names.  Without a
    name (no input, an empty one or white space only) the stored list is
    left as it is. *)
Theorem savePreset_appends_snapshot (st : State) :
  (forall typed,
     presetName st = Some typed -> trim typed <> "" ->
     let new := stored_presets (exec savePreset st) in
     presets (exec savePreset st)
     = Some (stored_presets st ++ [snapshot (trim typed) (brush st)])%list
     /\ List.length new = S (List.length (stored_presets st))
     /\ firstn (List.length (stored_presets st)) new = stored_presets st
     /\ nth_error new (List.length (stored_presets st))
        = Some (snapshot (trim typed) (brush st)))
  /\ ((presetName st = None
       \/ exists typed, presetName st = Some typed /\ trim typed = "") ->
      presets (exec savePreset st) = presets st).
Proof.
  split.
  - intros typed Hn Ht. cbv zeta.
    assert (En : stored_presets (exec savePreset st)
                 = (stored_presets st ++ [snapshot (trim typed) (brush st)])%list)
      by (unfold stored_presets at 1;
          now rewrite (savePreset_named typed st Hn Ht)).
    rewrite En, (savePreset_named typed st Hn Ht). state_fields.
    split; [reflexivity|]. split; [|split].
    + rewrite length_app. simpl. lia.
    + rewrite firstn_app, Nat.sub_diag, firstn_all. simpl. apply app_nil_r.
    + rewrite nth_error_app2 by lia. now rewrite Nat.sub_diag.
  - intros H. rewrite (savePreset_blank st H). reflexivity.
Qed.

Lemma coalesce_has_value (v old : value) : has_value v -> (v ?? old) = v.
Proof. intros [H1 H2]. destruct v; try reflexivity; contradiction. Qed.

Lemma loadPreset_found (index : option Z) (p : Preset.t) (st : State) :
  preset_at index (stored_presets st) = Some p ->
  let b := brush st in
  let st' := exec (loadPreset index) st in
  brush st'
  = Brush.mk (Preset.strokeColor p ?? Brush.strokeColor b)
             (Preset.strokeWidth p ?? Brush.strokeWidth b)
             (Preset.strokeAlpha p ?? Brush.strokeAlpha b)
             (Preset.strokeStyle p ?? Brush.strokeStyle b)
             (Preset.fillType p ?? Brush.fillType b)
             (Preset.fillColor p ?? Brush.fillColor b)
             (Preset.fillAlpha p ?? Brush.fillAlpha b)
             (Preset.bezierFactor p ?? Brush.bezierFactor b)
  /\ presets st' = presets st.
Proof.
  intros H. cbv zeta.
  unfold loadPreset, exec, bind, getPresets, get, ret. simpl.
  unfold stored_presets in H. rewrite H. split; reflexivity.
Qed.

(** C10, amended.  For every stored preset in which the eight brush fields
    are present and not [null] and whose name is a non-empty string, loading
    it and then saving a preset under a typed name that trims to that name
    appends a record equal to the original to the stored list. *)
Theorem load_then_save_round_trip
    (st : State) (i : nat) (p : Preset.t) (name typed : string) :
  nth_error (stored_presets st) i = Some p ->
  preset_complete p ->
  Preset.name p = VStr name ->
  name <> "" ->
  trim typed = name ->
  let loaded := exec (loadPreset (Some (Z.of_nat i))) st in
  let saved := exec savePreset (with_presetName (Some typed) loaded) in
  presets saved = Some (stored_presets st ++ [p])%list.
Proof.
  intros Hp (C1 & C2 & C3 & C4 & C5 & C6 & C7 & C8) Hname Hne Htrim. cbv zeta.
  assert (Hat : preset_at (Some (Z.of_nat i)) (stored_presets st) = Some p).
  { unfold preset_at. destruct (Z.ltb_spec (Z.of_nat i) 0); [lia|].
    now rewrite Nat2Z.id. }
  destruct (loadPreset_found _ p st Hat) as [Hb Hs]. cbv zeta in Hb, Hs.
  rewrite !coalesce_has_value in Hb by assumption.
  set (loaded := exec (loadPreset (Some (Z.of_nat i))) st) in *.
  rewrite (savePreset_named typed (with_presetName (Some typed) loaded))
    by (try reflexivity; rewrite Htrim; exact Hne).
  state_fields. unfold stored_presets. state_fields. rewrite Hs, Hb, Htrim.
  unfold snapshot. brush_fields. rewrite <- Hname.
  destruct p; reflexivity.
Qed.

(* ===================================================================== *)
(** ** The position of the palette *)
(* ===================================================================== *)

Lemma isPositionInViewport_margin (vw vh x y : Q) (pos : Pos.t) :
  ToNumber (Pos.left pos) = Fin x ->
  ToNumber (Pos.top pos) = Fin y ->
  isPositionInViewport (Fin vw) (Fin vh) pos = true
  <-> inside_visible_viewport vw vh (x + 50) (y + 50).
Proof.
  intros Hx Hy.
  unfold isPositionInViewport, inside_visible_viewport, js_ge, js_lt, num_ge.
  cbn [ToNumber num_neg num_sub]. rewrite Hx, Hy. cbn [num_le num_lt].
  rewrite !andb_true_iff, !negb_true_iff, !Qle_bool_iff.
  split.
  - intros [[[H1 H2] H3] H4].
    assert (~ vw - 50 <= x)
      by (intro K; apply Qle_bool_iff in K; congruence).
    assert (~ vh - 50 <= y)
      by (intro K; apply Qle_bool_iff in K; congruence).
    repeat split; lra.
  - intros (H1 & H2 & H3 & H4).
    repeat split; try lra.
    + destruct (Qle_bool (vw - 50) x) eqn:E; [|reflexivity].
      apply Qle_bool_iff in E. lra.
    + destruct (Qle_bool (vh - 50) y) eqn:E; [|reflexivity].
      apply Qle_bool_iff in E. lra.
Qed.

(** A coordinate that is not a finite number fails one of the four
    comparisons. *)
Lemma isPositionInViewport_not_finite (vw vh : Q) (pos : Pos.t) :
  is_finite (ToNumber (Pos.left pos)) = false
  \/ is_finite (ToNumber (Pos.top pos)) = false ->
  isPositionInViewport (Fin vw) (Fin vh) pos = false.
Proof.
  unfold isPositionInViewport, js_ge, js_lt, num_ge.
  cbn [ToNumber num_neg num_sub].
  intros [H|H].
  - destruct (ToNumber (Pos.left pos)); try discriminate; cbn [num_le num_lt];
      rewrite ?andb_false_r; reflexivity.
  - destruct (ToNumber (Pos.top pos)); try discriminate; cbn [num_le num_lt];
      rewrite ?andb_false_r; reflexivity.
Qed.

(** C8, amended.  On render, a saved position is applied if and only if
    the point 50 pixels to its right and 50 pixels below it lies inside the
    visible viewport, that is if [-50 <= left < vw - 50] and
    [-50 <= top < vh - 50], for every pair of coordinates and every viewport
    size; any other saved position is ignored, one with a coordinate that is
    not a finite number included, and so is a missing one: the palette then
    keeps the position it has. *)
Theorem saved_position_applied_within_margin
    (vw vh : Q) (pos : Pos.t) (st : State) :
  let st' := exec (_onRender (Fin vw) (Fin vh) (Some pos)) st in
  (forall x y,
     ToNumber (Pos.left pos) = Fin x ->
     ToNumber (Pos.top pos) = Fin y ->
     (inside_visible_viewport vw vh (x + 50) (y + 50) ->
        position st' = Pos.mk (Pos.left pos) (Pos.top pos)
        /\ effects st'
           = (effects st
              ++ [SetPosition (Pos.mk (Pos.left pos) (Pos.top pos))])%list)
     /\ (~ inside_visible_viewport vw vh (x + 50) (y + 50) -> st' = st))
  /\ (is_finite (ToNumber (Pos.left pos)) = false
      \/ is_finite (ToNumber (Pos.top pos)) = false ->
      st' = st)
  /\ exec (_onRender (Fin vw) (Fin vh) None) st = st.
Proof.
  cbv zeta. unfold _onRender. split; [|split; [|reflexivity]].
  - intros x y Hx Hy.
    pose proof (isPositionInViewport_margin vw vh x y pos Hx Hy) as M.
    destruct (isPositionInViewport (Fin vw) (Fin vh) pos).
    + split; [intros _; split; reflexivity|].
      intros H. exfalso. apply H, M. reflexivity.
    + split; [|reflexivity].
      intros H. apply M in H. discriminate.
  - intros H. now rewrite (isPositionInViewport_not_finite vw vh pos H).
Qed.

(* ===================================================================== *)
(** ** Start-up: the persisted brush, its validation and the first write *)
(* ===================================================================== *)

Lemma number_at_least_weaken (lo lo' : Q) (v : value) :
  lo' <= lo -> number_at_least lo v -> number_at_least lo' v.
Proof.
  intros H [n [E L]]. exists n. split; [exact E|].
  destruct n as [| | |q]; simpl in *; try discriminate; auto.
  apply Qle_bool_iff in L. apply Qle_bool_iff. lra.
Qed.

(** A number from a positive bound up is truthy. *)
Lemma at_least_positive_truthy (c : Q) (v : value) :
  0 < c -> number_at_least c v -> ToBoolean v = true.
Proof.
  intros Hc [n [-> L]].
  destruct n as [| | |q]; simpl in *; try discriminate; auto.
  apply Qle_bool_iff in L.
  destruct (Qeq_bool q 0) eqn:E; [|reflexivity].
  apply Qeq_bool_iff in E. lra.
Qed.

Lemma num_max_idempotent (c : Q) (n : number) :
  num_max (Fin c) (num_max (Fin c) n) = num_max (Fin c) n.
Proof.
  destruct n as [| | |y]; simpl; try reflexivity.
  - assert (E : Qle_bool c c = true) by apply Qle_bool_iff, Qle_refl.
    now rewrite E.
  - destruct (Qle_bool y c) eqn:E; simpl.
    + assert (E' : Qle_bool c c = true) by apply Qle_bool_iff, Qle_refl.
      now rewrite E'.
    + now rewrite E.
Qed.

(** Clamping a clamped value changes nothing. *)
Lemma clamp_idempotent (c d : Q) (v : value) :
  0 < c ->
  let r := Math_max (num c) (Number v || num d) in
  Math_max (num c) (Number r || num d) = r.
Proof.
  intros Hc r.
  pose proof (clamp_from_below c d v) as H. fold r in H.
  pose proof (at_least_positive_truthy c r Hc H) as T.
  subst r.
  change (Math_max (num c) (Number v || num d))
    with (VNum (num_max (Fin c) (ToNumber (Number v || num d)))) in *.
  set (m := num_max (Fin c) (ToNumber (Number v || num d))) in *.
  change (Number (VNum m)) with (VNum m).
  unfold js_or. rewrite T.
  unfold Math_max. simpl ToNumber. subst m. now rewrite num_max_idempotent.
Qed.

Lemma or_default_idempotent (v d : value) : ((v || d) || d) = (v || d).
Proof.
  unfold js_or. destruct (ToBoolean v) eqn:E; [now rewrite E|].
  now destruct (ToBoolean d).
Qed.

(** X1.  [_validateBrush] is idempotent: validating a validated brush
    changes none of its eight fields, whatever the brush held before. *)
Theorem validateBrush_idempotent (b : Brush.t) :
  _validateBrush (_validateBrush b) = _validateBrush b.
Proof.
  unfold _validateBrush at 1. cbv zeta. brush_fields.
  unfold _validateBrush; cbv zeta; brush_fields.
  rewrite !or_default_idempotent.
  rewrite (clamp_idempotent 1 8) by reflexivity.
  rewrite (clamp_idempotent 0.1 1) by reflexivity.
  reflexivity.
Qed.

Lemma or_default_truthy (v d : value) :
  ToBoolean d = true -> ToBoolean (v || d) = true.
Proof. intros H. unfold js_or. destruct (ToBoolean v) eqn:E; congruence. Qed.

(** What the clamping of [_loadPersistedBrush] reaches, field by field. *)
Lemma loadPersistedBrush_clamp_valid (b : Brush.t) :
  let b' := _loadPersistedBrush_clamp b in
  in_palette_range b'
  /\ (exists n, Brush.fillType b' = VNum n /\ is_NaN n = false)
  /\ ToBoolean (Brush.strokeColor b') = true
  /\ ToBoolean (Brush.fillColor b') = true
  /\ ToBoolean (Brush.strokeStyle b') = true.
Proof.
  cbv zeta. split; [|split].
  - apply (loadPersistedBrush_clamps b).
  - unfold _loadPersistedBrush_clamp; cbv zeta; brush_fields.
    apply Number_or_default.
  - unfold _loadPersistedBrush_clamp; cbv zeta; brush_fields.
    repeat split; now apply or_default_truthy.
Qed.

(** X2.  Whatever object was stored as [lastBrush] and whatever the brush
    held, [_loadPersistedBrush] leaves a brush whose width is a number from
    1, whose stroke opacity is a number from 0.05, whose fill opacity and
    curve factor are numbers from 0, whose fill type is a number other than
    [NaN], and whose two colours and stroke style are truthy; with a falsy
    stored value it leaves the brush alone. *)
Theorem loadPersistedBrush_always_valid
    (entries : list (string * value)) (b : Brush.t) :
  let b' := _loadPersistedBrush (Some entries) b in
  (in_palette_range b'
   /\ (exists n, Brush.fillType b' = VNum n /\ is_NaN n = false)
   /\ ToBoolean (Brush.strokeColor b') = true
   /\ ToBoolean (Brush.fillColor b') = true
   /\ ToBoolean (Brush.strokeStyle b') = true)
  /\ _loadPersistedBrush None b = b.
Proof.
  cbv zeta. split; [|reflexivity].
  apply (loadPersistedBrush_clamp_valid (Object_assign b entries)).
Qed.

(** [_validateBrush] keeps what the loader reached, and raises the stroke
    opacity to 0.1. *)
Lemma validateBrush_after_clamp (b : Brush.t) :
  number_at_least 0 (Brush.fillAlpha b) ->
  number_at_least 0 (Brush.bezierFactor b) ->
  brush_clamped (_validateBrush b).
Proof.
  intros [fa [Efa Lfa]] [bf [Ebf Lbf]].
  destruct (validateBrush_stroke_clamped b) as (H1 & H2 & H3 & H4 & _).
  unfold brush_clamped. rewrite H3, H4, Efa, Ebf.
  repeat split; try assumption; eexists; split; try reflexivity; assumption.
Qed.

(** The configuration of the guard revision, for any brush. *)
Lemma core_config_valid_fields (env : Env) (b : Brush.t) :
  let c := core_config env b in
  number_at_least 0.1 (Drawing.strokeAlpha c)
  /\ (Drawing.fillType c === num 2) = false
  /\ number_at_least 0 (Drawing.fillAlpha c)
  /\ number_at_least 0 (Drawing.bezierFactor c)
  /\ ToBoolean (Drawing.strokeColor c) = true
  /\ ToBoolean (Drawing.fillColor c) = true.
Proof.
  unfold core_config; cbv zeta; drawing_fields.
  split; [apply clamp_from_below|].
  split.
  { rewrite Number_coalesce.
    destruct (Number (Brush.fillType b) === num 2) eqn:E;
      [reflexivity|exact E]. }
  split.
  { pose proof (keep_if_not_negative (Brush.fillAlpha b) VUndefined 0.5) as K.
    rewrite Number_coalesce in K. apply K. lra. }
  split.
  { pose proof (keep_if_not_negative (Brush.bezierFactor b) VUndefined 0) as K.
    rewrite Number_coalesce in K. apply K. lra. }
  split; now apply or_default_truthy.
Qed.

Lemma core_config_width (env : Env) (b : Brush.t) :
  number_at_least 1 (Brush.strokeWidth b) ->
  number_at_least 1 (Drawing.strokeWidth (core_config env b)).
Proof.
  intros H. unfold core_config; cbv zeta; drawing_fields.
  assert (T : ToBoolean (Brush.strokeWidth b) = true)
    by (apply (at_least_positive_truthy 1); [reflexivity|exact H]).
  unfold js_or. rewrite T. destruct H as [n [E L]]. rewrite E.
  unfold Math_max. simpl ToNumber. eexists. split; [reflexivity|].
  apply num_max_lower_bound. destruct n; simpl in *; congruence.
Qed.

(** X3.  The configuration the guard revision writes to
    [core.defaultDrawingConfig] has, for every brush, a stroke opacity that
    is a number from 0.1, a fill type that is never 2 (pattern), a fill
    opacity and a curve factor that are numbers from 0, and truthy colours;
    its width is a number from 1 whenever the brush's width is. *)
Theorem core_config_is_valid (env : Env) (b : Brush.t) :
  let c := core_config env b in
  (number_at_least 0.1 (Drawing.strokeAlpha c)
   /\ (Drawing.fillType c === num 2) = false
   /\ number_at_least 0 (Drawing.fillAlpha c)
   /\ number_at_least 0 (Drawing.bezierFactor c)
   /\ ToBoolean (Drawing.strokeColor c) = true
   /\ ToBoolean (Drawing.fillColor c) = true)
  /\ (number_at_least 1 (Brush.strokeWidth b) ->
      number_at_least 1 (Drawing.strokeWidth c)).
Proof.
  cbv zeta. split; [apply core_config_valid_fields|apply core_config_width].
Qed.

Lemma core_config_of_validated (env : Env) (b : Brush.t) :
  meets_host_constraints VUndefined (core_config env (_validateBrush b)).
Proof.
  destruct (core_config_valid_fields env (_validateBrush b))
    as (H1 & H2 & H3 & H4 & _).
  cbv zeta in *.
  unfold meets_host_constraints. repeat split; try assumption.
  - apply core_config_width. apply validateBrush_stroke_clamped.
  - intros K. congruence.
Qed.

(** X4.  At start-up and whenever the canvas is ready, for every prior
    brush and every stored [lastBrush], the hook leaves the brush validated
    and issues exactly one write of [core.defaultDrawingConfig], of a
    configuration that meets the host's constraints: width from 1, stroke
    opacity from 0.1, fill type other than 2, fill opacity and curve factor
    from 0.  After [ready] with a stored brush the clamping invariant of
    the brush holds in full. *)
Theorem startup_writes_valid_config
    (env : Env) (saved : option (list (string * value))) (st : State) :
  (exists c, inflight (exec (canvasReady env) st) = (inflight st ++ [c])%list
             /\ meets_host_constraints VUndefined c
             /\ brush (exec (canvasReady env) st) = _validateBrush (brush st))
  /\ (exists c, inflight (exec (ready env saved) st) = (inflight st ++ [c])%list
                /\ meets_host_constraints VUndefined c
                /\ brush (exec (ready env saved) st)
                   = _validateBrush (_loadPersistedBrush saved (brush st)))
  /\ (forall entries,
        saved = Some entries ->
        brush_clamped (brush (exec (ready env saved) st))).
Proof.
  split; [|split].
  - exists (core_config env (_validateBrush (brush st))).
    split; [reflexivity|]. split; [apply core_config_of_validated|reflexivity].
  - exists (core_config env
              (_validateBrush (_loadPersistedBrush saved (brush st)))).
    split; [reflexivity|]. split; [apply core_config_of_validated|reflexivity].
  - intros entries ->.
    change (brush (exec (ready env (Some entries)) st))
      with (_validateBrush (_loadPersistedBrush (Some entries) (brush st))).
    destruct (loadPersistedBrush_clamp_valid
                (Object_assign (brush st) entries))
      as [(_ & _ & Hfa & Hbf) _].
    now apply validateBrush_after_clamp.
Qed.

(* ===================================================================== *)
(** ** Preview and final drawing *)
(* ===================================================================== *)

(** X5.  For a brush whose width is a number and drawing data without a
    texture, the configuration the guard revision writes (the preview) and
    the update its [preCreateDrawing] hook applies (the final drawing) agree
    on stroke colour, width and opacity, fill type, colour and opacity, and
    curve factor. *)
Theorem preview_matches_final_drawing
    (env : Env) (adt : bool) (b : Brush.t) (data : Drawing.t) (n : number) :
  Brush.strokeWidth b = VNum n ->
  ToBoolean (Drawing.texture data) = false ->
  let c := core_config env b in
  let u := preCreateDrawing_updateData adt b data in
  Drawing.strokeColor c = Drawing.strokeColor u
  /\ Drawing.strokeWidth c = Drawing.strokeWidth u
  /\ Drawing.strokeAlpha c = Drawing.strokeAlpha u
  /\ Drawing.fillType c = Drawing.fillType u
  /\ Drawing.fillColor c = Drawing.fillColor u
  /\ Drawing.fillAlpha c = Drawing.fillAlpha u
  /\ Drawing.bezierFactor c = Drawing.bezierFactor u.
Proof.
  intros Hw Ht. cbv zeta.
  unfold core_config, preCreateDrawing_updateData; cbv zeta; drawing_fields.
  unfold js_not. rewrite Ht, Hw. cbn [negb]. rewrite andb_true_r.
  repeat split.
Qed.

(* ===================================================================== *)
(** ** The [updateSetting] hook never throws *)
(* ===================================================================== *)

Lemma never_throws_ret {A} (a : A) : never_throws (ret a).
Proof. intros st. now exists a. Qed.

Lemma never_throws_get {A} (proj : State -> A) : never_throws (get proj).
Proof. intros st. now exists (proj st). Qed.

Lemma never_throws_modify (f : State -> State) : never_throws (modify f).
Proof. intros st. now exists tt. Qed.

Lemma never_throws_perform (e : effect) : never_throws (perform e).
Proof. intros st. now exists tt. Qed.

Lemma never_throws_bind {A B} (m : M A) (k : A -> M B) :
  never_throws m -> (forall a, never_throws (k a)) -> never_throws (bind m k).
Proof.
  intros Hm Hk st. unfold outcome, bind.
  destruct (Hm st) as [a Ha]. unfold outcome in Ha.
  destruct (m st) as [c st']. simpl in Ha. subst c. apply (Hk a st').
Qed.

(** A [try] block with a handler that ends normally ends normally, whatever
    its body does. *)
Lemma never_throws_try_catch {A} (body : M A) (handler : value -> M A) :
  (forall e, never_throws (handler e)) -> never_throws (try_catch body handler).
Proof.
  intros Hh st. unfold outcome, try_catch.
  destruct (body st) as [[a|e] st']; [now exists a|apply (Hh e st')].
Qed.

Lemma never_throws_saveBrushSettings (env : Env) :
  never_throws (saveBrushSettings env).
Proof. intros st. now exists tt. Qed.

Lemma updateSetting_total (env : Env) (setting : Setting) :
  never_throws (updateSetting env setting).
Proof.
  unfold updateSetting.
  destruct (negb (setting_key setting =? "core.defaultDrawingConfig")%string);
    [apply never_throws_ret|].
  apply never_throws_bind; [apply never_throws_get|]. intros selfUpdating.
  destruct selfUpdating; [apply never_throws_ret|].
  destruct (negb (_isDrawingToolActive env)); [apply never_throws_ret|].
  apply never_throws_try_catch. intros e. apply never_throws_perform.
Qed.

(** X6.  The [updateSetting] handler ends normally for every setting and
    in every state: a text that [JSON.parse] rejects is reported on the
    console and changes nothing else.  For a setting with another key,
    while the flag is set, and while the drawings control is not the
    active one, the handler leaves the whole state as it is. *)
Theorem updateSetting_never_throws
    (env : Env) (setting : Setting) (st : State) :
  outcome (updateSetting env setting) st = Normal tt
  /\ ((setting_key setting =? "core.defaultDrawingConfig")%string = false
      \/ _selfUpdatingCoreConfig st = true
      \/ _isDrawingToolActive env = false ->
      exec (updateSetting env setting) st = st)
  /\ (forall s e,
        setting = mkSetting "core.defaultDrawingConfig" (CValue (VStr s)) ->
        JSON_parse s = Throw e ->
        _selfUpdatingCoreConfig st = false ->
        _isDrawingToolActive env = true ->
        exec (updateSetting env setting) st
        = with_effects (effects st ++ [Console_warn warn_sync])%list st).
Proof.
  split; [|split].
  - destruct (updateSetting_total env setting st) as [[] H]. exact H.
  - intros [H|[H|H]].
    + unfold updateSetting, exec. now rewrite H.
    + unfold exec. now rewrite updateSetting_ignored_while_flag_set.
    + unfold updateSetting, exec.
      destruct (negb (setting_key setting =? "core.defaultDrawingConfig")%string);
        [reflexivity|].
      unfold bind, get. destruct (_selfUpdatingCoreConfig st); [reflexivity|].
      now rewrite H.
  - intros s e -> Hp Hf Ha.
    unfold updateSetting, exec, bind, get, try_catch, lift_completion. simpl.
    rewrite Hf, Ha. simpl. rewrite Hp. reflexivity.
Qed.

(* ===================================================================== *)
(** ** The ranges of the numeric fields *)
(* ===================================================================== *)

Lemma keeps_refl (I : Brush.t -> Prop) (st : State) : keeps I st st.
Proof. intros H. exact H. Qed.

Lemma keeps_trans (I : Brush.t -> Prop) (a b c : State) :
  keeps I a b -> keeps I b c -> keeps I a c.
Proof. unfold keeps. auto. Qed.

Lemma same_brush_keeps (I : Brush.t -> Prop) (st st' : State) :
  same_brush st st' -> keeps I st st'.
Proof. unfold same_brush, keeps. now intros ->. Qed.

Lemma saveBrushSettings_plain_same_brush :
  respects same_brush saveBrushSettings_plain.
Proof. intros st. reflexivity. Qed.

Lemma validateBrush_in_range (b : Brush.t) :
  in_palette_range b -> in_palette_range (_validateBrush b).
Proof.
  intros (_ & _ & Hfa & Hbf).
  destruct (validateBrush_after_clamp b Hfa Hbf) as (H1 & H2 & H3 & H4).
  repeat split; try assumption.
  apply (number_at_least_weaken 0.1); [lra|exact H2].
Qed.

Lemma clamp_parsed (c d : Q) (n : number) :
  number_at_least c (Math_max (num c) (VNum n || num d)).
Proof. exact (clamp_from_below c d (VNum n)). Qed.

(** What is left of an action once its control flow is gone: assignments to
    one field of the brush, and blocks that do not write the brush. *)
Ltac range_leaf :=
  first
    [ apply respects_modify; intros ?st; unfold keeps, in_palette_range;
      state_fields; brush_fields; intros (?H1 & ?H2 & ?H3 & ?H4);
      repeat split;
      first [ assumption
            | apply clamp_from_below
            | apply clamp_parsed
            | apply (number_at_least_weaken 0.1);
              [ lra | apply clamp_from_below ] ]
    | apply (respects_weaken same_brush);
      [ intros ? ?; apply same_brush_keeps
      | first [ apply saveBrushSettings_plain_same_brush
              | apply saveBrushSettings_same_brush
              | apply perform_same_brush
              | apply begin_same_brush
              | apply resume_same_brush
              | apply plain_begin_same_brush
              | intros ?st; reflexivity ] ] ].

Lemma act_keeps_range (a : action) :
  respects (keeps in_palette_range) (act a).
Proof.
  pose proof (keeps_refl in_palette_range) as Rf.
  pose proof (keeps_trans in_palette_range) as Rt.
  destruct a as [env saved|env|env setting| |ev|color|color|i r]; simpl.
  - intros st H. change (brush (exec (ready env saved) st))
      with (_validateBrush (_loadPersistedBrush saved (brush st))).
    apply validateBrush_in_range. destruct saved as [entries|]; [|exact H].
    apply (loadPersistedBrush_clamp_valid (Object_assign (brush st) entries)).
  - intros st H. change (brush (exec (canvasReady env) st))
      with (_validateBrush (brush st)).
    now apply validateBrush_in_range.
  - unfold updateSetting. repeat (respects_step Rf Rt); range_leaf.
  - unfold _onDragLeftStart_begin. repeat (respects_step Rf Rt); range_leaf.
  - unfold onInputChange, set_brush. repeat (respects_step Rf Rt); range_leaf.
  - unfold pickStrokeColor, set_brush. repeat (respects_step Rf Rt); range_leaf.
  - unfold pickFillColor, set_brush. repeat (respects_step Rf Rt); range_leaf.
  - repeat (respects_step Rf Rt); range_leaf.
Qed.

(** X7.  Once the width of the brush is a number from 1, its stroke opacity
    a number from 0.05 and its fill opacity and curve factor numbers from 0,
    they stay so through every sequence of start-up and canvas hooks,
    external configuration changes, drag starts, palette inputs (whatever
    text is typed), swatch picks and settled writes. *)
Theorem numeric_ranges_are_kept (acts : list action) (st : State) :
  in_palette_range (brush st) ->
  in_palette_range (brush (perform_all acts st)).
Proof.
  revert st. induction acts as [|a acts IH]; intros st H; simpl; [exact H|].
  apply IH. now apply (act_keeps_range a st).
Qed.

(* ===================================================================== *)
(** ** The inputs of the palette *)
(* ===================================================================== *)

Lemma is_hex_color_length (s : string) :
  is_hex_color s = true -> String.length s = 7%nat.
Proof.
  destruct s as [|c rest]; simpl; [discriminate|].
  intros H. apply andb_true_iff in H as [_ H].
  apply andb_true_iff in H as [H _]. apply Nat.eqb_eq in H. now rewrite H.
Qed.

(** X8.  The two colour text fields take only a text the test
    [/^#[0-9a-f]{6}$/i] accepts, a [#] followed by six hexadecimal digits:
    the colour of the field is then that text, of seven characters, and for
    any other text the brush is left as it is.  So a stroke or fill colour
    of that form keeps that form whatever is typed. *)
Theorem color_text_accepts_only_hex (ev : InputEvent) (st : State) :
  input_name ev = "strokeColorText" \/ input_name ev = "fillColorText" ->
  let b' := brush (exec (onInputChange ev) st) in
  let text := input_value ev in
  (is_hex_color text = false -> b' = brush st)
  /\ (is_hex_color text = true ->
      String.length text = 7%nat
      /\ b' = (if String.eqb (input_name ev) "strokeColorText"
               then Brush.set_strokeColor (VStr text) (brush st)
               else Brush.set_fillColor (VStr text) (brush st)))
  /\ (is_hex_value (Brush.strokeColor (brush st)) = true ->
      is_hex_value (Brush.strokeColor b') = true)
  /\ (is_hex_value (Brush.fillColor (brush st)) = true ->
      is_hex_value (Brush.fillColor b') = true).
Proof.
  destruct ev as [name text checked picker]. cbv zeta. simpl.
  intros [-> | ->]; unfold onInputChange; simpl;
    destruct (is_hex_color text) eqn:E;
    (split; [intros K; try discriminate K; reflexivity|]);
    (split; [intros K; try discriminate K;
             (split; [now apply is_hex_color_length
                     |destruct picker; reflexivity])|]);
    split; intros K; destruct picker; simpl; assumption.
Qed.

(** X9.  An input event of the palette hands the brush to the host for
    storage exactly once, whatever field it comes from ([fillEnabled], which
    saves on its own and returns, included), and ends normally.  The one
    exception: a colour text that is accepted while its colour picker is
    missing from the window throws after the brush was changed and before
    anything is stored. *)
Theorem input_saves_once (ev : InputEvent) (st : State) :
  (outcome (onInputChange ev) st = Normal tt
   /\ brush_saves (exec (onInputChange ev) st) = S (brush_saves st))
  \/ (outcome (onInputChange ev) st = Throw TypeError
      /\ brush_saves (exec (onInputChange ev) st) = brush_saves st
      /\ picker_present ev = false
      /\ is_hex_color (input_value ev) = true
      /\ (input_name ev = "strokeColorText"
          \/ input_name ev = "fillColorText")).
Proof.
  destruct ev as [name text checked picker].
  unfold onInputChange, set_brush. simpl.
  repeat match goal with
         | |- context [String.eqb name ?s] =>
             destruct (String.eqb_spec name s); [subst name|]
         end;
    try (left; split; [reflexivity|];
         unfold exec, bind, modify, perform, get, saveBrushSettings_plain,
           _updateCoreDrawingConfig_plain_begin,
           settings_set_defaultDrawingConfig, brush_saves;
         simpl; rewrite !filter_app, !length_app; simpl; lia).
  - destruct (is_hex_color text) eqn:E; [destruct picker|].
    + left. split; [reflexivity|].
      unfold exec, brush_saves. simpl.
      rewrite !filter_app, !length_app; simpl; lia.
    + right. repeat split; auto.
    + left. split; [reflexivity|].
      unfold exec, brush_saves. simpl.
      rewrite !filter_app, !length_app; simpl; lia.
  - destruct (is_hex_color text) eqn:E; [destruct picker|].
    + left. split; [reflexivity|].
      unfold exec, brush_saves. simpl.
      rewrite !filter_app, !length_app; simpl; lia.
    + right. repeat split; auto.
    + left. split; [reflexivity|].
      unfold exec, brush_saves. simpl.
      rewrite !filter_app, !length_app; simpl; lia.
Qed.

(* ===================================================================== *)
(** ** Presets: indices out of range and round trips *)
(* ===================================================================== *)

Lemma remove_nth_beyond {A} (i : nat) (l : list A) :
  (List.length l <= i)%nat -> remove_nth i l = l.
Proof.
  intros H. unfold remove_nth.
  rewrite firstn_all2 by lia. rewrite skipn_all2 by lia. apply app_nil_r.
Qed.

Lemma remove_nth_last {A} (l : list A) (x : A) :
  remove_nth (List.length l) (l ++ [x]) = l.
Proof.
  unfold remove_nth. induction l as [|a l IH]; simpl; [reflexivity|].
  f_equal. exact IH.
Qed.

Lemma deletePreset_stores (index : option Z) (st : State) :
  presets (exec (deletePreset index) st)
  = Some (Array_splice1 index (stored_presets st)).
Proof. reflexivity. Qed.

(** X10.  [deletePreset] outside the range of the list: an index at or
    beyond the length deletes nothing; a negative index counts from the end
    of the list; an index that is not a number ([NaN], from a target
    without a [data-index]) and an index below minus the length delete the
    first preset. *)
Theorem deletePreset_outside_the_range (st : State) :
  let old := stored_presets st in
  let len := Z.of_nat (List.length old) in
  (forall i, (len <= i)%Z ->
     presets (exec (deletePreset (Some i)) st) = Some old)
  /\ (forall k, (1 <= k <= len)%Z ->
     presets (exec (deletePreset (Some (- k)%Z)) st)
     = Some (remove_nth (Z.to_nat (len - k)) old))
  /\ (forall i, (i < - len)%Z ->
     presets (exec (deletePreset (Some i)) st) = Some (tl old))
  /\ presets (exec (deletePreset None) st) = Some (tl old).
Proof.
  cbv zeta. repeat split.
  - intros i H. rewrite deletePreset_stores. f_equal.
    unfold Array_splice1. destruct (Z.ltb_spec i 0); [lia|].
    rewrite Z.min_r by lia. apply remove_nth_beyond. lia.
  - intros k H. rewrite deletePreset_stores. f_equal.
    unfold Array_splice1. destruct (Z.ltb_spec (- k) 0); [|lia].
    rewrite Z.max_l by lia. reflexivity.
  - intros i H. rewrite deletePreset_stores. f_equal.
    unfold Array_splice1. destruct (Z.ltb_spec i 0); [|lia].
    rewrite Z.max_r by lia. now destruct (stored_presets st).
  - rewrite deletePreset_stores. f_equal.
    unfold Array_splice1. simpl. rewrite Z.min_l by lia.
    now destruct (stored_presets st).
Qed.

(** X11.  [loadPreset] with an index that names no preset (at or beyond the
    length, negative, or not a number) leaves the whole state as it is:
    the brush is not written, nothing is stored and the palette is not
    rendered again. *)
Theorem loadPreset_without_preset (index : option Z) (st : State) :
  (match index with
   | Some i => (i < 0)%Z \/ (Z.of_nat (List.length (stored_presets st)) <= i)%Z
   | None => True
   end) ->
  exec (loadPreset index) st = st.
Proof.
  intros H.
  assert (E : preset_at index (stored_presets st) = None).
  { destruct index as [i|]; [|reflexivity]. unfold preset_at.
    destruct (Z.ltb_spec i 0); [reflexivity|].
    destruct H as [H|H]; [lia|]. apply nth_error_None. lia. }
  unfold loadPreset, exec, bind, getPresets, get, ret. simpl.
  unfold stored_presets in E. now rewrite E.
Qed.

Lemma coalesce_self (v : value) : (v ?? v) = v.
Proof. now destruct v. Qed.

(** X12.  Saving the brush as a preset and loading that preset back leaves
    the brush as it was, field by field, whatever its fields hold. *)
Theorem save_then_load_keeps_brush (st : State) (typed : string) :
  presetName st = Some typed ->
  trim typed <> "" ->
  let saved := exec savePreset st in
  let index := Some (Z.of_nat (List.length (stored_presets st))) in
  brush (exec (loadPreset index) saved) = brush st.
Proof.
  intros Hn Ht. cbv zeta.
  pose proof (savePreset_named typed st Hn Ht) as E.
  set (saved := exec savePreset st) in *.
  assert (Hs : stored_presets saved
               = (stored_presets st ++ [snapshot (trim typed) (brush st)])%list)
    by (unfold stored_presets at 1; now rewrite E).
  assert (Hb : brush saved = brush st) by now rewrite E.
  assert (Hat : preset_at (Some (Z.of_nat (List.length (stored_presets st))))
                          (stored_presets saved)
                = Some (snapshot (trim typed) (brush st))).
  { unfold preset_at. destruct (Z.ltb_spec (Z.of_nat (List.length (stored_presets st))) 0);
      [lia|].
    rewrite Nat2Z.id, Hs, nth_error_app2 by lia. now rewrite Nat.sub_diag. }
  destruct (loadPreset_found _ _ saved Hat) as [H _]. cbv zeta in H.
  rewrite H, Hb. unfold snapshot. cbn [Preset.strokeColor Preset.strokeWidth
    Preset.strokeAlpha Preset.strokeStyle Preset.fillType Preset.fillColor
    Preset.fillAlpha Preset.bezierFactor].
  rewrite !coalesce_self. now destruct (brush st).
Qed.

(** X13.  Saving a preset and deleting the last preset of the list restores
    the stored list. *)
Theorem save_then_delete_last (st : State) (typed : string) :
  presetName st = Some typed ->
  trim typed <> "" ->
  let saved := exec savePreset st in
  let index := Some (Z.of_nat (List.length (stored_presets st))) in
  presets (exec (deletePreset index) saved) = Some (stored_presets st).
Proof.
  intros Hn Ht. cbv zeta.
  pose proof (savePreset_named typed st Hn Ht) as E.
  set (saved := exec savePreset st) in *.
  assert (Hs : stored_presets saved
               = (stored_presets st ++ [snapshot (trim typed) (brush st)])%list)
    by (unfold stored_presets at 1; now rewrite E).
  rewrite deletePreset_stores, Hs. f_equal.
  rewrite splice_in_range by (rewrite length_app; simpl; lia).
  rewrite Nat2Z.id. apply remove_nth_last.
Qed.

(* ===================================================================== *)
(** ** Showing and hiding the palette *)
(* ===================================================================== *)

Lemma scene_step_created_once (ev : scene_event) (v : Visibility) :
  palette_created_once v -> palette_created_once (scene_step ev v).
Proof.
  unfold palette_created_once.
  destruct v as [p w calls].
  assert (K : forall l : list window_call,
            count_call New_BrushPalette (mkVisibility true true calls) = 1%nat ->
            ~ In New_BrushPalette l ->
            List.length
              (filter (fun c => match c with New_BrushPalette => true
                                           | _ => false end) (calls ++ l))
            = 1%nat).
  { intros l H Hl. rewrite filter_app, length_app.
    unfold count_call in H. simpl in H. rewrite H.
    induction l as [|c l IH]; [reflexivity|].
    destruct c; simpl in *; try (apply IH; tauto). exfalso. tauto. }
  destruct ev as [env rendered|rendered]; simpl;
    unfold renderSceneControls, canvasTearDown, _showPalette, _hidePalette;
    simpl.
  - destruct (_isDrawingToolActive env), w, p, rendered; simpl; intros H;
      try exact H; try (subst calls; reflexivity);
      unfold count_call; simpl; apply K;
      try exact H; simpl; intuition discriminate.
  - destruct w, p, rendered; simpl; intros H;
      try exact H; try (subst calls; reflexivity);
      unfold count_call; simpl; apply K;
      try exact H; simpl; intuition discriminate.
Qed.

(** X14.  However the scene controls are rendered and the canvas torn
    down, a palette window is created at most once: every later activation
    of the drawings control renders the window that exists, and nothing is
    closed before a window exists. *)
Theorem palette_created_at_most_once (evs : list scene_event) :
  let v := scene_run evs visibility_at_load in
  (count_call New_BrushPalette v <= 1)%nat
  /\ (palette v = false -> window_calls v = [])
  /\ (palette v = true -> count_call New_BrushPalette v = 1%nat).
Proof.
  cbv zeta.
  assert (H : palette_created_once (scene_run evs visibility_at_load)).
  { assert (G : forall v, palette_created_once v ->
                          palette_created_once (scene_run evs v)).
    { induction evs as [|ev evs IH]; intros v Hv; simpl; [exact Hv|].
      apply IH. now apply scene_step_created_once. }
    apply G. reflexivity. }
  unfold palette_created_once in H.
  destruct (palette (scene_run evs visibility_at_load)).
  - split; [rewrite H; lia|]. split; [discriminate|]. intros _. exact H.
  - split; [unfold count_call; rewrite H; simpl; lia|].
    split; [intros _; exact H|discriminate].
Qed.

(** X15.  After [renderSceneControls], [_wasDrawingActive] tells whether
    the drawings control is the active one, so rendering the controls again
    without a change of control calls nothing on the window: the palette is
    shown when the control becomes active and hidden when it stops being
    so, not in between. *)
Theorem palette_follows_the_control
    (env : Env) (rendered rendered' : bool) (v : Visibility) :
  let v' := renderSceneControls env rendered v in
  _wasDrawingActive v' = _isDrawingToolActive env
  /\ renderSceneControls env rendered' v' = v'
  /\ (_wasDrawingActive v = _isDrawingToolActive env ->
      window_calls v' = window_calls v /\ palette v' = palette v).
Proof.
  destruct v as [p w calls]. cbv zeta.
  unfold renderSceneControls, _showPalette, _hidePalette. simpl.
  destruct (_isDrawingToolActive env), w, p, rendered, rendered'; simpl;
    repeat split; try reflexivity; try discriminate.
Qed.

(* ===================================================================== *)
(** ** Starting a drawing *)
(* ===================================================================== *)

(** X16.  The [_onDragLeftStart] wrapper repairs the stroke of the brush
    (width a number from 1, opacity a number from 0.1, a truthy colour),
    leaves the other five fields alone and issues one write, of a
    configuration with a width from 1, full stroke and fill opacity and a
    solid fill.  When that write settles, resolved or rejected, the host's
    own handler runs and its result is the wrapper's: a rejected write adds
    a warning on the console and nothing else. *)
Theorem dragStart_always_starts {A} (wrapped : M A) (st : State) :
  let st1 := exec _onDragLeftStart_begin st in
  (number_at_least 1 (Brush.strokeWidth (brush st1))
   /\ number_at_least 0.1 (Brush.strokeAlpha (brush st1))
   /\ ToBoolean (Brush.strokeColor (brush st1)) = true
   /\ Brush.strokeStyle (brush st1) = Brush.strokeStyle (brush st)
   /\ Brush.fillType (brush st1) = Brush.fillType (brush st)
   /\ Brush.fillColor (brush st1) = Brush.fillColor (brush st)
   /\ Brush.fillAlpha (brush st1) = Brush.fillAlpha (brush st)
   /\ Brush.bezierFactor (brush st1) = Brush.bezierFactor (brush st))
  /\ (exists c,
        inflight st1 = (inflight st ++ [c])%list
        /\ number_at_least 1 (Drawing.strokeWidth c)
        /\ Drawing.strokeAlpha c = num 1
        /\ Drawing.fillType c = num 1
        /\ Drawing.fillAlpha c = num 1
        /\ ToBoolean (Drawing.strokeColor c) = true
        /\ ToBoolean (Drawing.fillColor c) = true)
  /\ _onDragLeftStart_resume wrapped Resolved st = wrapped st
  /\ (forall e,
        _onDragLeftStart_resume wrapped (Rejected e) st
        = wrapped (with_effects (effects st ++ [Console_warn warn_core])%list st)).
Proof.
  cbv zeta.
  set (w := Math_max (num 1) (Number (Brush.strokeWidth (brush st)) || num 8)).
  set (a := Math_max (num 0.1) (Number (Brush.strokeAlpha (brush st)) || num 1)).
  assert (Hw : number_at_least 1 w) by apply clamp_from_below.
  assert (Ha : number_at_least 0.1 a) by apply clamp_from_below.
  assert (Eb : brush (exec _onDragLeftStart_begin st)
               = Brush.mk (Brush.strokeColor (brush st) || VStr "#000000") w a
                          (Brush.strokeStyle (brush st))
                          (Brush.fillType (brush st))
                          (Brush.fillColor (brush st))
                          (Brush.fillAlpha (brush st))
                          (Brush.bezierFactor (brush st))).
  { unfold _onDragLeftStart_begin, exec, bind, modify, get, js_not, js_or.
    simpl. destruct (ToBoolean (Brush.strokeColor (brush st))); reflexivity. }
  assert (Ei : inflight (exec _onDragLeftStart_begin st)
               = (inflight st
                  ++ [core_config_plain (brush (exec _onDragLeftStart_begin st))])%list).
  { unfold _onDragLeftStart_begin, exec, bind, modify, get, js_not.
    simpl. destruct (ToBoolean (Brush.strokeColor (brush st))); reflexivity. }
  split; [|split; [|split]].
  - rewrite Eb. brush_fields.
    repeat split; try assumption. now apply or_default_truthy.
  - eexists. split; [exact Ei|]. rewrite Eb.
    unfold core_config_plain. drawing_fields. brush_fields.
    split.
    { assert (T : ToBoolean w = true)
        by (apply (at_least_positive_truthy 1); [reflexivity|exact Hw]).
      unfold js_or at 1. rewrite T. destruct Hw as [n [E L]]. rewrite E.
      unfold Math_max. simpl ToNumber. eexists. split; [reflexivity|].
      apply num_max_lower_bound. destruct n; simpl in *; congruence. }
    repeat split; try reflexivity; apply or_default_truthy; reflexivity.
  - reflexivity.
  - intros e. reflexivity.
Qed.

(* ===================================================================== *)
(** ** The module's own configuration, handled as an external change *)
(* ===================================================================== *)

(** With the flag down and the drawings control active, the handler does to
    the brush what [sync_brush] says, and nothing at all when no test
    holds. *)
Lemma updateSetting_syncs (env : Env) (c : Drawing.t) (st : State) :
  _selfUpdatingCoreConfig st = false ->
  _isDrawingToolActive env = true ->
  brush (exec (updateSetting env (config_setting c)) st) = sync_brush c (brush st)
  /\ (sync_changed c (brush st) = false ->
      exec (updateSetting env (config_setting c)) st = st).
Proof.
  intros Hf Ha.
  unfold updateSetting, config_setting, exec, bind, get, try_catch, ret, modify.
  simpl. rewrite Hf, Ha. simpl.
  unfold sync_brush, sync_changed, differs_strokeColor, differs_strokeAlpha,
    differs_fillColor, differs_fillAlpha.
  destruct st as [b f writes stored name pos done]. simpl in Hf. subst f. simpl.
  repeat (match goal with
          | |- context [if ?c then _ else _] => destruct c eqn:?E
          end; simpl);
    (split; [now destruct b|]); intros K; try discriminate K; reflexivity.
Qed.

Lemma num_eq_refl (m : number) : is_NaN m = false -> num_eq m m = true.
Proof.
  destruct m as [| | |q]; simpl; try discriminate; auto.
  intros _. apply Qeq_bool_iff. reflexivity.
Qed.

Lemma num_le_not_NaN (c : Q) (m : number) :
  num_le (Fin c) m = true -> is_NaN m = false.
Proof. destruct m; simpl; congruence. Qed.

Lemma num_max_eq (c : Q) (m : number) :
  num_le (Fin c) m = true -> num_eq (num_max (Fin c) m) m = true.
Proof.
  destruct m as [| | |q]; simpl; try discriminate; auto.
  intros H. apply Qle_bool_iff in H.
  destruct (Qle_bool q c) eqn:E; simpl; apply Qeq_bool_iff.
  - apply Qle_bool_iff in E. now apply Qle_antisym.
  - reflexivity.
Qed.

Lemma num_eq_at_least (c : Q) (n m : number) :
  num_le (Fin c) n = true -> num_eq n m = true -> num_le (Fin c) m = true.
Proof.
  destruct n as [| | |x], m as [| | |y]; simpl; try discriminate; auto.
  intros H E. apply Qle_bool_iff in H. apply Qeq_bool_iff in E.
  apply Qle_bool_iff. now rewrite <- E.
Qed.

Lemma num_max_above (c' c : Q) (n : number) :
  c' < c -> num_le (Fin c) n = true -> num_max (Fin c') n = n.
Proof.
  intros Hc. destruct n as [| | |q]; simpl; try discriminate; auto.
  intros H. apply Qle_bool_iff in H.
  destruct (Qle_bool q c') eqn:E; [|reflexivity].
  apply Qle_bool_iff in E. lra.
Qed.

Lemma strict_eq_number (n : number) (x : value) :
  (VNum n === x) = true -> exists m, x = VNum m /\ num_eq n m = true.
Proof. destruct x; simpl; try discriminate. intros H. now eexists. Qed.

Lemma strict_eq_same_truth (a b : value) :
  (a === b) = true -> ToBoolean a = ToBoolean b.
Proof.
  destruct a as [| |x|x|x|r p], b as [| |y|y|y|r' p']; simpl;
    try discriminate; auto.
  - intros H. now apply Bool.eqb_prop in H.
  - destruct x as [| | |q], y as [| | |q']; simpl; try discriminate; auto.
    intros H. apply Qeq_bool_iff in H.
    destruct (Qeq_bool q 0) eqn:E, (Qeq_bool q' 0) eqn:E'; auto.
    + apply Qeq_bool_iff in E. assert (K : q' == 0) by (now rewrite <- H).
      apply Qeq_bool_iff in K. congruence.
    + apply Qeq_bool_iff in E'. assert (K : q == 0) by (now rewrite H).
      apply Qeq_bool_iff in K. congruence.
  - intros H. apply String.eqb_eq in H. now subst.
Qed.

Lemma truthy_strict_eq (v : value) : ToBoolean v = true -> (v === v) = true.
Proof.
  destruct v as [| |x|x|x|r p]; simpl; try discriminate.
  - now destruct x.
  - destruct x as [| | |q]; try discriminate; auto.
    intros _. apply Qeq_bool_iff. reflexivity.
  - intros _. apply String.eqb_refl.
  - intros _. apply Nat.eqb_refl.
Qed.

(** A colour: after one round the module's own colour is the brush's. *)
Lemma color_settles (v d : value) :
  ToBoolean d = true ->
  let c := (v || d) in
  let v1 := if ToBoolean c && (c !== v) then c else v in
  ToBoolean (v1 || d) && ((v1 || d) !== v1) = false.
Proof.
  intros Hd. cbv zeta.
  assert (Keep : forall x, ToBoolean x = true -> (x || d) = x).
  { intros x Tx. unfold js_or. now rewrite Tx. }
  assert (Same : forall x, ToBoolean x = true ->
                 ToBoolean x && (x !== x) = false).
  { intros x Tx. now rewrite Tx, (truthy_strict_eq x Tx). }
  destruct (ToBoolean v) eqn:T.
  - rewrite (Keep v T), (Same v T), (Keep v T). now apply Same.
  - assert (Ev : (v || d) = d) by (unfold js_or; now rewrite T).
    rewrite Ev, Hd. destruct (d === v) eqn:E.
    + apply strict_eq_same_truth in E. congruence.
    + cbn [negb andb]. rewrite (Keep d Hd). now apply Same.
Qed.

(** The stroke opacity: after one round the opacity the module writes is
    the brush's. *)
Lemma strokeAlpha_settles (x : value) :
  let c := Math_max (num 0.1) (Number x || num 1) in
  let x1 := if (c !== VUndefined) && (c !== x)
            then Math_max (num 0.05) (Number c || num 1) else x in
  let c1 := Math_max (num 0.1) (Number x1 || num 1) in
  (c1 !== VUndefined) && (c1 !== x1) = false.
Proof.
  cbv zeta.
  destruct (clamp_from_below 0.1 1 x) as [n [En Ln]]. rewrite En.
  assert (Tn : ToBoolean (VNum n) = true).
  { apply (at_least_positive_truthy 0.1); [reflexivity|]. now exists n. }
  assert (S : forall m, num_le (Fin 0.1) m = true ->
              (Math_max (num 0.1) (Number (VNum m) || num 1) !== VUndefined)
              && (Math_max (num 0.1) (Number (VNum m) || num 1) !== VNum m)
              = false).
  { intros m Lm.
    assert (Tm : ToBoolean (VNum m) = true).
    { apply (at_least_positive_truthy 0.1); [reflexivity|]. now exists m. }
    change (Number (VNum m)) with (VNum m). unfold js_or. rewrite Tm.
    change (Math_max (num 0.1) (VNum m)) with (VNum (num_max (Fin 0.1) m)).
    change (VNum (num_max (Fin 0.1) m) !== VNum m)
      with (negb (num_eq (num_max (Fin 0.1) m) m)).
    rewrite (num_max_eq 0.1 m Lm). apply andb_false_r. }
  change (VNum n !== VUndefined) with true. cbn [andb].
  destruct (VNum n === x) eqn:E; cbn [negb].
  - destruct (strict_eq_number n x E) as [m [-> Em]].
    apply S. now apply (num_eq_at_least 0.1 n m).
  - assert (Ex : Math_max (num 0.05) (Number (VNum n) || num 1) = VNum n).
    { change (Number (VNum n)) with (VNum n). unfold js_or. rewrite Tn.
      change (Math_max (num 0.05) (VNum n)) with (VNum (num_max (Fin 0.05) n)).
      now rewrite (num_max_above 0.05 0.1 n) by (try reflexivity; assumption). }
    rewrite Ex. now apply S.
Qed.

(** The fill opacity, likewise. *)
Lemma fillAlpha_settles (x : value) :
  let c := if js_ge (Number x) (num 0) then Number x else num 0.5 in
  let x1 := if (c !== VUndefined) && (c !== x)
            then Math_max (num 0) (Number c || num 0) else x in
  let c1 := if js_ge (Number x1) (num 0) then Number x1 else num 0.5 in
  (c1 !== VUndefined) && (c1 !== x1) = false.
Proof.
  cbv zeta.
  pose proof (keep_if_not_negative x VUndefined 0.5) as K.
  rewrite Number_coalesce in K. destruct K as [n [En Ln]]; [lra|].
  rewrite En.
  assert (S : forall m, num_le (Fin 0) m = true ->
              ((if js_ge (Number (VNum m)) (num 0)
                then Number (VNum m) else num 0.5) !== VUndefined)
              && ((if js_ge (Number (VNum m)) (num 0)
                   then Number (VNum m) else num 0.5) !== VNum m)
              = false).
  { intros m Lm. change (Number (VNum m)) with (VNum m).
    unfold js_ge, num_ge. simpl ToNumber. rewrite Lm. simpl.
    now rewrite (num_eq_refl m (num_le_not_NaN 0 m Lm)). }
  change (VNum n !== VUndefined) with true. cbn [andb].
  destruct (VNum n === x) eqn:E; cbn [negb].
  - destruct (strict_eq_number n x E) as [m [-> Em]].
    apply S. now apply (num_eq_at_least 0 n m).
  - destruct (clamp_from_below 0 0 (VNum n)) as [m [Em Lm]].
    rewrite Em. now apply S.
Qed.

(** X17.  The exchange with the host's setting comes to rest after one
    round.  Let the notification of the configuration the module writes for
    its brush be handled with the flag down (the handler then takes the
    stroke and fill colours and opacities from it and saves).  In every
    later state with the flag down and the brush that round left, the
    notification of the configuration written for that brush passes none
    of the four tests of the handler: the state is unchanged, nothing is
    saved and no further write is issued. *)
Theorem own_configuration_settles (env : Env) (st st' : State) :
  _isDrawingToolActive env = true ->
  _selfUpdatingCoreConfig st = false ->
  _selfUpdatingCoreConfig st' = false ->
  brush st' =
    brush (exec (updateSetting env
                   (config_setting (core_config env (brush st)))) st) ->
  exec (updateSetting env (config_setting (core_config env (brush st')))) st'
  = st'.
Proof.
  intros Ha Hf Hf' Hb.
  destruct (updateSetting_syncs env (core_config env (brush st)) st Hf Ha)
    as [Hs _].
  rewrite Hs in Hb.
  apply updateSetting_syncs; [exact Hf'|exact Ha|].
  rewrite Hb.
  set (b := brush st).
  unfold sync_changed, sync_brush, core_config.
  unfold differs_strokeColor, differs_strokeAlpha, differs_fillColor,
    differs_fillAlpha.
  cbv zeta. drawing_fields. brush_fields.
  rewrite (color_settles (Brush.strokeColor b) (VStr "#000000") eq_refl).
  rewrite (color_settles (Brush.fillColor b) (VStr "#ffffff") eq_refl).
  rewrite (strokeAlpha_settles (Brush.strokeAlpha b)).
  rewrite (fillAlpha_settles (Brush.fillAlpha b)).
  reflexivity.
Qed.

(* ===================================================================== *)
(** ** Storing the brush and reading it back *)
(* ===================================================================== *)

Lemma Object_assign_all (b b0 : Brush.t) :
  Object_assign b0 (brush_entries b) = b.
Proof. now destruct b, b0. Qed.

Lemma nonempty_string_kept (v d : value) :
  nonempty_string v -> (v || d) = v.
Proof.
  intros [s [-> Hs]]. unfold js_or. simpl.
  apply String.eqb_neq in Hs. now rewrite Hs.
Qed.

(** [Math.max(c, Number(v) || d)] gives back a finite [v] from [c] that is
    not zero. *)
Lemma clamp_gives_back (c d q : Q) :
  c <= q -> ToBoolean (num q) = true ->
  (Math_max (num c) (Number (num q) || num d) === num q) = true.
Proof.
  intros Hc Hq. change (Number (num q)) with (num q).
  unfold js_or. rewrite Hq.
  change (Math_max (num c) (num q)) with (VNum (num_max (Fin c) (Fin q))).
  apply (num_max_eq c (Fin q)). now apply Qle_bool_iff.
Qed.

Lemma positive_is_truthy (c q : Q) : 0 < c -> c <= q -> ToBoolean (num q) = true.
Proof.
  intros Hc Hq. simpl. destruct (Qeq_bool q 0) eqn:E; [|reflexivity].
  apply Qeq_bool_iff in E. lra.
Qed.

Lemma falsy_is_zero (q : Q) : ToBoolean (num q) = false -> Qeq_bool 0 q = true.
Proof.
  simpl. intros H. apply negb_false_iff, Qeq_bool_iff in H.
  apply Qeq_bool_iff. now symmetry.
Qed.

(** X18.  What [saveBrushSettings] stores comes back at the next start: for
    a brush as the palette keeps it, [_loadPersistedBrush] on the stored
    copy leaves, whatever the brush held before, the same colours and stroke
    style and equal width, stroke opacity, fill type and curve factor.  The
    fill opacity comes back equal unless it was 0: a fully transparent fill
    is read back as the default 0.5. *)
Theorem stored_brush_comes_back (b b0 : Brush.t) :
  palette_brush b ->
  let b' := _loadPersistedBrush (Some (brush_entries b)) b0 in
  Brush.strokeColor b' = Brush.strokeColor b
  /\ (Brush.strokeWidth b' === Brush.strokeWidth b) = true
  /\ (Brush.strokeAlpha b' === Brush.strokeAlpha b) = true
  /\ Brush.strokeStyle b' = Brush.strokeStyle b
  /\ (Brush.fillType b' === Brush.fillType b) = true
  /\ Brush.fillColor b' = Brush.fillColor b
  /\ (Brush.bezierFactor b' === Brush.bezierFactor b) = true
  /\ (if ToBoolean (Brush.fillAlpha b)
      then (Brush.fillAlpha b' === Brush.fillAlpha b) = true
      else Brush.fillAlpha b' = num 0.5).
Proof.
  intros (Hsc & [w [Ew Hw]] & [a [Ea Ha]] & Hss & [t Et] & Hfc
          & [fa [Efa Hfa]] & [z [Ez Hz]]).
  cbv zeta. unfold _loadPersistedBrush. rewrite Object_assign_all.
  unfold _loadPersistedBrush_clamp. cbv zeta. brush_fields.
  rewrite Ew, Ea, Et, Efa, Ez.
  split; [now apply nonempty_string_kept|].
  split; [apply clamp_gives_back;
          [exact Hw|now apply (positive_is_truthy 1)]|].
  split; [apply clamp_gives_back;
          [exact Ha|now apply (positive_is_truthy 0.05)]|].
  split; [now apply nonempty_string_kept|].
  split.
  { change (Number (VNum (Fin t))) with (num t). unfold js_or.
    destruct (ToBoolean (num t)) eqn:T.
    - now apply truthy_strict_eq.
    - now apply falsy_is_zero. }
  split; [now apply nonempty_string_kept|].
  split.
  { fold (num z). destruct (ToBoolean (num z)) eqn:T.
    - now apply clamp_gives_back.
    - change (Number (num z)) with (num z). unfold js_or. rewrite T.
      now apply falsy_is_zero. }
  fold (num fa). destruct (ToBoolean (num fa)) eqn:T.
  - now apply clamp_gives_back.
  - change (Number (num fa)) with (num fa). unfold js_or. rewrite T.
    reflexivity.
Qed.

End Module_mjs.

(* ===================================================================== *)
(** ** The statements on concrete inputs *)
(* ===================================================================== *)

(** C4 as stated fails: an infinite width is not a finite number, and the
    hook applies it as it is, not the default 8. *)
Lemma infinite_width_is_not_defaulted :
  is_finite (ToNumber digits_to_number (Brush.strokeWidth brush_infinite_width))
  = false
  /\ Drawing.strokeWidth
       (preCreateDrawing_updateData digits_to_number true brush_infinite_width
          Drawing.empty)
     = VNum PosInf
  /\ Drawing.strokeWidth
       (preCreateDrawing_updateData digits_to_number true brush_infinite_width
          Drawing.empty)
     <> num 8.
Proof.
  split; [reflexivity|]. split; [reflexivity|]. discriminate.
Qed.

(** C4, amended, on a brush none of whose fields is usable. *)
Lemma NaN_fields_fall_back_witness :
  let d := preCreateDrawing_updateData digits_to_number true brush_all_invalid
             Drawing.empty in
  Drawing.strokeWidth d = num 8
  /\ Drawing.strokeAlpha d = num 1
  /\ Drawing.fillAlpha d = num 0.5
  /\ Drawing.bezierFactor d = num 0
  /\ Drawing.strokeColor d = VStr "#000000"
  /\ Drawing.fillColor d = VStr "#ffffff".
Proof.
  destruct (NaN_fields_fall_back_to_defaults digits_to_number true
              brush_all_invalid Drawing.empty)
    as (H1 & H2 & H3 & H4 & H5 & H6).
  cbv zeta.
  split; [exact (proj1 (H1 eq_refl))|].
  split; [exact (proj1 (H2 eq_refl))|].
  split; [exact (proj1 (H3 eq_refl))|].
  split; [exact (proj1 (H4 eq_refl))|].
  split; [exact (proj1 (H5 eq_refl))|].
  exact (proj1 (H6 eq_refl)).
Defined.

(** C6 on the default presets: a second preset named Marker is appended. *)
Lemma savePreset_appends_witness :
  presets (exec (savePreset trim_spaces)
                (with_presetName (Some " Marker ") initial_state))
  = Some (DEFAULT_PRESETS ++ [snapshot "Marker" DEFAULT_BRUSH])%list.
Proof.
  destruct (savePreset_appends_snapshot trim_spaces
              (with_presetName (Some " Marker ") initial_state)) as [H _].
  apply (H " Marker "); [reflexivity|].
  vm_compute. discriminate.
Defined.

(** C7 on the default presets: deleting the second of the six. *)
Lemma deletePreset_witness :
  S (List.length
       (stored_presets (exec (deletePreset (Some 1%Z)) initial_state)))
  = 6%nat
  /\ nth_error (stored_presets (exec (deletePreset (Some 1%Z)) initial_state)) 1
     = nth_error DEFAULT_PRESETS 2.
Proof.
  assert (H : (0 <= 1 < Z.of_nat (List.length (stored_presets initial_state)))%Z)
    by (simpl; lia).
  destruct (deletePreset_removes_exactly_one initial_state 1 H)
    as (_ & H2 & _ & H4).
  split; [exact H2|]. apply (H4 1%nat). simpl. lia.
Defined.

(** C8 as stated fails in both directions for a window of 800 by 600: a
    position outside the visible viewport is applied, and one inside it is
    ignored. *)
Lemma position_test_is_not_the_viewport :
  (~ inside_visible_viewport 800 600 (-10) 10
   /\ position (exec (_onRender digits_to_number (Fin 800) (Fin 600)
                                (Some pos_left_of_window)) initial_state)
      = pos_left_of_window)
  /\ (inside_visible_viewport 800 600 790 10
      /\ exec (_onRender digits_to_number (Fin 800) (Fin 600)
                         (Some pos_near_right_edge)) initial_state
         = initial_state).
Proof.
  split; split.
  - unfold inside_visible_viewport. intros [H _]. revert H. apply Qlt_not_le.
    reflexivity.
  - reflexivity.
  - unfold inside_visible_viewport. repeat split; try discriminate.
  - reflexivity.
Qed.

(** C8, amended, on a position well inside a window of 800 by 600, one
    coordinate stored as a string. *)
Lemma saved_position_witness :
  position (exec (_onRender digits_to_number (Fin 800) (Fin 600)
                            (Some (Pos.mk (num 100) (VStr "100")))) initial_state)
  = Pos.mk (num 100) (VStr "100").
Proof.
  destruct (saved_position_applied_within_margin digits_to_number
              800 600 (Pos.mk (num 100) (VStr "100")) initial_state)
    as [H _].
  cbv zeta in H.
  apply (H 100 100); [reflexivity|reflexivity|].
  unfold inside_visible_viewport. repeat split; try discriminate.
Defined.

(** C10 as stated fails: a preset whose eight fields are all present, one of
    them [null], comes back with the brush's former fill opacity; and a
    preset with a padded name comes back under the trimmed name. *)
Lemma round_trip_fails_on_null_and_padding :
  (fields_present preset_null_fill
   /\ Preset.fillAlpha preset_null_fill = VNull
   /\ option_map Preset.fillAlpha
        (nth_error
           (stored_presets
              (exec (savePreset trim_spaces)
                 (with_presetName (Some "Fine Pen")
                    (exec (loadPreset digits_to_number (Some 0%Z))
                       (with_presets (Some [preset_null_fill]) initial_state)))))
           1)
      = Some (num 0.5))
  /\ (fields_present preset_padded_name
      /\ Preset.name preset_padded_name = VStr " Fine Pen"
      /\ option_map Preset.name
           (nth_error
              (stored_presets
                 (exec (savePreset trim_spaces)
                    (with_presetName (Some " Fine Pen")
                       (exec (loadPreset digits_to_number (Some 0%Z))
                          (with_presets (Some [preset_padded_name])
                             initial_state)))))
              1)
         = Some (VStr "Fine Pen")).
Proof.
  split; (split; [repeat split; discriminate|split; reflexivity]).
Qed.

(** C10, amended, on the default preset Marker, its name typed with spaces
    around it. *)
Lemma load_then_save_witness :
  presets (exec (savePreset trim_spaces)
             (with_presetName (Some " Marker ")
                (exec (loadPreset digits_to_number (Some 1%Z)) initial_state)))
  = Some (DEFAULT_PRESETS
          ++ [Preset.mk (VStr "Marker") (VStr "#ff0000") (num 8) (num 1)
                        (VStr "solid") (num 0) (VStr "#ffffff") (num 0.5)
                        (num 0.2)])%list.
Proof.
  apply (load_then_save_round_trip digits_to_number trim_spaces
           initial_state 1 _ "Marker" " Marker ").
  - reflexivity.
  - repeat split; discriminate.
  - reflexivity.
  - discriminate.
  - reflexivity.
Defined.

(** A name made of white space only trims to the empty string, and
    [savePreset] then leaves the stored presets alone. *)
Lemma trim_spaces_blank (s : string) :
  forallb is_space (list_ascii_of_string s) = true -> trim_spaces s = "".
Proof.
  unfold trim_spaces. induction s as [|c s IH]; simpl; [reflexivity|].
  intros H. apply andb_true_iff in H as [Hc Hs]. rewrite Hc. now apply IH.
Qed.

Example savePreset_blank_name :
  presets (exec (savePreset trim_spaces)
                (with_presetName (Some "   ") initial_state))
  = presets initial_state.
Proof. reflexivity. Qed.

(** X5 on a faint brush with a pattern fill, for data without a texture. *)
Lemma preview_matches_final_witness :
  let c := core_config digits_to_number env_drawing brush_custom in
  let u := preCreateDrawing_updateData digits_to_number true brush_custom
             Drawing.empty in
  Drawing.strokeColor c = Drawing.strokeColor u
  /\ Drawing.strokeWidth c = Drawing.strokeWidth u
  /\ Drawing.strokeAlpha c = Drawing.strokeAlpha u
  /\ Drawing.fillType c = Drawing.fillType u
  /\ Drawing.fillColor c = Drawing.fillColor u
  /\ Drawing.fillAlpha c = Drawing.fillAlpha u
  /\ Drawing.bezierFactor c = Drawing.bezierFactor u.
Proof.
  apply (preview_matches_final_drawing digits_to_number env_drawing true
           brush_custom Drawing.empty (Fin 12)); reflexivity.
Defined.

(** X7 from the state at load, through inputs that are no numbers. *)
Lemma numeric_ranges_witness :
  in_palette_range
    (brush (perform_all digits_to_number parse_nothing digits_to_number
              digits_to_number actions_with_bad_input initial_state)).
Proof.
  apply (numeric_ranges_are_kept digits_to_number parse_nothing
           digits_to_number digits_to_number actions_with_bad_input
           initial_state).
  unfold in_palette_range, number_at_least. simpl.
  repeat split; eexists; (split; [reflexivity|reflexivity]).
Defined.

(** X8 on a colour typed in mixed case. *)
Lemma color_text_witness :
  brush (exec (onInputChange digits_to_number digits_to_number
                 digits_to_number input_stroke_text) initial_state)
  = Brush.set_strokeColor (VStr "#12abEF") DEFAULT_BRUSH.
Proof.
  destruct (color_text_accepts_only_hex digits_to_number digits_to_number
              digits_to_number input_stroke_text initial_state
              (or_introl eq_refl)) as (_ & H & _).
  apply H. reflexivity.
Defined.

(** X11 on the default presets: there is no seventh preset. *)
Lemma loadPreset_without_preset_witness :
  exec (loadPreset digits_to_number (Some 6%Z)) initial_state = initial_state.
Proof.
  apply (loadPreset_without_preset digits_to_number (Some 6%Z) initial_state).
  right. simpl. lia.
Defined.

(** X12 on a brush saved as the seventh preset. *)
Lemma save_then_load_witness :
  brush (exec (loadPreset digits_to_number (Some 6%Z))
           (exec (savePreset trim_spaces) state_with_name))
  = brush_custom.
Proof.
  apply (save_then_load_keeps_brush digits_to_number trim_spaces
           state_with_name " Mine ").
  - reflexivity.
  - vm_compute. discriminate.
Defined.

(** X13 on the default presets. *)
Lemma save_then_delete_witness :
  presets (exec (deletePreset (Some 6%Z))
             (exec (savePreset trim_spaces) state_with_name))
  = Some DEFAULT_PRESETS.
Proof.
  apply (save_then_delete_last trim_spaces state_with_name " Mine ").
  - reflexivity.
  - vm_compute. discriminate.
Defined.

(** X17 on a brush with an opacity of 0.05: the first round raises it to
    0.1, and after the write of that round has settled the notification
    of the configuration written for the new brush changes nothing. *)
Lemma own_configuration_witness :
  let st := with_brush brush_custom initial_state in
  let round :=
    step digits_to_number parse_nothing
      (UpdateSetting env_drawing
         (config_setting (core_config digits_to_number env_drawing
                            brush_custom))) st in
  let st' := step digits_to_number parse_nothing (Settle 0 Resolved) round in
  Brush.strokeAlpha (brush st') = num 0.1
  /\ exec (updateSetting digits_to_number parse_nothing env_drawing
             (config_setting (core_config digits_to_number env_drawing
                                (brush st')))) st'
     = st'.
Proof.
  cbv zeta. split; [reflexivity|].
  apply (own_configuration_settles digits_to_number parse_nothing env_drawing
           (with_brush brush_custom initial_state)); reflexivity.
Defined.

(** X18 on a brush with a fully transparent fill: the colour comes back,
    the fill opacity comes back as 0.5. *)
Lemma stored_brush_witness :
  let b' := _loadPersistedBrush digits_to_number
              (Some (brush_entries brush_custom)) DEFAULT_BRUSH in
  Brush.strokeColor b' = VStr "#ff0000"
  /\ (Brush.strokeWidth b' === num 12)%js = true
  /\ Brush.fillAlpha b' = num 0.5.
Proof.
  assert (H : palette_brush brush_custom).
  { unfold palette_brush, finite_at_least, nonempty_string. simpl.
    repeat split; eexists; try (split; [reflexivity|discriminate]);
      reflexivity. }
  destruct (stored_brush_comes_back digits_to_number brush_custom
              DEFAULT_BRUSH H) as (H1 & H2 & _ & _ & _ & _ & _ & H8).
  cbv zeta. split; [exact H1|]. split; [exact H2|exact H8].
Defined.
